(** * A shallow embedding of the video dashboard front end

    The development follows the two source files of the repository:
    - [App.js]: the dashboard component (search/filter controller, pager,
      row actions and the Add/Edit modal);
    - the transcript editor component ([VisualEditor]).

    React state is modelled by explicit state passing: every handler is a
    function from the component state (and the answers of the environment:
    HTTP results, the confirmation dialog) to the next state and the list of
    effects it issued.  JavaScript objects that are used as key-value bags
    (a video record, the form data) are finite maps from property names to
    strings; a missing property is [undefined]. *)

From Stdlib Require Import ZArith Ascii String List Lia Bool.
From stdpp Require Import gmap strings list.

Local Open Scope Z_scope.

(** ** JavaScript string primitives

    Strings are sequences of 8-bit characters: the model covers the ASCII
    fragment of JavaScript strings, on which [length] counts characters,
    [toLowerCase] only moves the letters A-Z and [\s] is one of the six ASCII
    white-space characters. *)
Module JS.

(** [Boolean(s)] for a string: only the empty string is falsy. *)
Definition truthy (s : string) : bool :=
  match s with
  | EmptyString => false
  | String _ _ => true
  end.

Definition lowerChar (c : ascii) : ascii :=
  let n := nat_of_ascii c in
  if ((65 <=? n) && (n <=? 90))%nat then ascii_of_nat (n + 32) else c.

(** [s.toLowerCase()] *)
Fixpoint toLowerCase (s : string) : string :=
  match s with
  | EmptyString => EmptyString
  | String c r => String (lowerChar c) (toLowerCase r)
  end.

Fixpoint trimStart (s : string) : string :=
  match s with
  | EmptyString => EmptyString
  | String c r => if Ascii.is_space c then trimStart r else s
  end.

Definition trimEnd (s : string) : string :=
  String.rev (trimStart (String.rev s)).

(** [s.trim()] *)
Definition trim (s : string) : string := trimEnd (trimStart s).

(** [s.includes(sub)]: [sub] occurs in [s] as a contiguous substring. *)
Fixpoint includes (s sub : string) : bool :=
  String.prefix sub s
  || match s with
     | EmptyString => false
     | String _ r => includes r sub
     end.

(** [s.split(/\s+/)]: the pieces between maximal runs of white space;
    a leading or trailing run gives an empty first or last piece, and the
    empty string gives one empty piece.  [cur] is the piece being read (in
    reverse), [inSep] says that the previous character was white space. *)
Fixpoint splitWs_go (cur : string) (inSep : bool) (s : string) : list string :=
  match s with
  | EmptyString => [String.rev cur]
  | String c r =>
      if Ascii.is_space c then
        if inSep then splitWs_go cur true r
        else String.rev cur :: splitWs_go EmptyString true r
      else splitWs_go (String c cur) false r
  end.

Definition splitWs (s : string) : list string :=
  splitWs_go EmptyString false s.

(** The length of a match of [[^>]*>] at the head of [s]: the number of
    characters up to and including the first [>], if there is one. *)
Fixpoint tagTail (s : string) : option nat :=
  match s with
  | EmptyString => None
  | String c r =>
      if Ascii.eqb c ">" then Some 1%nat else S <$> tagTail r
  end.

(** [s.replace(/<[^>]*>/g, "")]: scanning from the left, a [<] that is
    followed by a [>] starts a match, which runs to the first such [>] and
    is dropped; the scan resumes after it.  Any other character is kept.
    [skip] counts the characters of the current match still to be dropped. *)
Fixpoint stripTags_go (skip : nat) (s : string) : string :=
  match s with
  | EmptyString => EmptyString
  | String c r =>
      match skip with
      | S k => stripTags_go k r
      | O =>
          if Ascii.eqb c "<" then
            match tagTail r with
            | Some n => stripTags_go n r
            | None => String c (stripTags_go O r)
            end
          else String c (stripTags_go O r)
      end
  end.

Definition stripTags (s : string) : string := stripTags_go O s.

(** [s.split(sep)] for a separator [sep] of one character: the pieces
    between its occurrences, never an empty array. *)
Fixpoint splitChar_go (sep : ascii) (cur : string) (s : string) : list string :=
  match s with
  | EmptyString => [String.rev cur]
  | String c r =>
      if Ascii.eqb c sep then String.rev cur :: splitChar_go sep EmptyString r
      else splitChar_go sep (String c cur) r
  end.

Definition splitChar (sep : ascii) (s : string) : list string :=
  splitChar_go sep EmptyString s.

(** *** Predicates on strings used to state the properties *)

(** [s] has no match of [<[^>]*>]: no [<] of [s] has a [>] after it. *)
Fixpoint tagFree (s : string) : bool :=
  match s with
  | EmptyString => true
  | String c r =>
      (if Ascii.eqb c "<" then
         match tagTail r with Some _ => false | None => true end
       else true)
      && tagFree r
  end.

(** Every character of [s] is white space. *)
Fixpoint blank (s : string) : bool :=
  match s with
  | EmptyString => true
  | String c r => Ascii.is_space c && blank r
  end.

(** [sep] does not occur in [s]. *)
Fixpoint lacks (sep : ascii) (s : string) : bool :=
  match s with
  | EmptyString => true
  | String c r => negb (Ascii.eqb c sep) && lacks sep r
  end.

End JS.

(** ** The transcript editor *)
Module VisualEditor.

(** [content.replace(/<[^>]*>/g, "").split(/\s+/).filter(Boolean).length] *)
Definition wordCount (content : string) : nat :=
  length (List.filter JS.truthy (JS.splitWs (JS.stripTags content))).

(** [content.replace(/<[^>]*>/g, "").length] *)
Definition charCount (content : string) : nat :=
  String.length (JS.stripTags content).

End VisualEditor.

(** ** The dashboard component *)
Module App.

Definition PAGE_LIMIT : Z := 1000.

(** A video record is a key-value bag as the backend sent it: [v !! k] is
    the property [v[k]], [None] when the property is missing. *)
Abbreviation Video := (gmap string string).

Definition _id (v : Video) : option string := v !! "_id".

(** The [filters] object; [Object.entries] lists it in this order. *)
Record Filters := {
  title : string;
  description : string;
  transcriptText : string;
}.

Definition noFilters : Filters :=
  {| title := ""; description := ""; transcriptText := "" |}.

Definition entries (f : Filters) : list (string * string) :=
  [("title", title f); ("description", description f);
   ("transcriptText", transcriptText f)].

(** The [filterCounts] object; a field is [None] when the object does not
    have it (the backend's [filter_counts] may be missing, and the state is
    then the empty object). *)
Record FilterCounts := {
  titleDocs : option Z;
  descDocs : option Z;
  transDocs : option Z;
  totalDocs : option Z;
}.

Definition zeroCounts : FilterCounts :=
  {| titleDocs := Some 0; descDocs := Some 0; transDocs := Some 0;
     totalDocs := Some 0 |}.

(** The object literal [{}]. *)
Definition emptyCounts : FilterCounts :=
  {| titleDocs := None; descDocs := None; transDocs := None;
     totalDocs := None |}.

(** The [useState] cells of the component that the handlers below read or
    write.  [estimatedCount] is [None] when [undefined]; [totalPages] is
    [None] when [NaN] (the ceiling of [undefined / PAGE_LIMIT]). *)
Record State := {
  videos : list Video;
  loading : bool;
  nextCursor : option string;
  searchText : string;
  searchField : string;
  filters : Filters;
  estimatedCount : option Z;
  filterCounts : FilterCounts;
  tempSearchText : string;
  appliedFilters : list (string * string);
  page : Z;
  totalPages : option Z;
}.

Definition initial : State :=
  {| videos := []; loading := false; nextCursor := None;
     searchText := ""; searchField := "title"; filters := noFilters;
     estimatedCount := Some 0; filterCounts := zeroCounts;
     tempSearchText := ""; appliedFilters := []; page := 1;
     totalPages := Some 1 |}.

Definition setVideos (vs : list Video) (st : State) : State :=
  {| videos := vs; loading := loading st; nextCursor := nextCursor st;
     searchText := searchText st; searchField := searchField st;
     filters := filters st; estimatedCount := estimatedCount st;
     filterCounts := filterCounts st; tempSearchText := tempSearchText st;
     appliedFilters := appliedFilters st; page := page st;
     totalPages := totalPages st |}.

Definition setLoading (b : bool) (st : State) : State :=
  {| videos := videos st; loading := b; nextCursor := nextCursor st;
     searchText := searchText st; searchField := searchField st;
     filters := filters st; estimatedCount := estimatedCount st;
     filterCounts := filterCounts st; tempSearchText := tempSearchText st;
     appliedFilters := appliedFilters st; page := page st;
     totalPages := totalPages st |}.

Definition setNextCursor (c : option string) (st : State) : State :=
  {| videos := videos st; loading := loading st; nextCursor := c;
     searchText := searchText st; searchField := searchField st;
     filters := filters st; estimatedCount := estimatedCount st;
     filterCounts := filterCounts st; tempSearchText := tempSearchText st;
     appliedFilters := appliedFilters st; page := page st;
     totalPages := totalPages st |}.

Definition setPage (p : Z) (st : State) : State :=
  {| videos := videos st; loading := loading st; nextCursor := nextCursor st;
     searchText := searchText st; searchField := searchField st;
     filters := filters st; estimatedCount := estimatedCount st;
     filterCounts := filterCounts st; tempSearchText := tempSearchText st;
     appliedFilters := appliedFilters st; page := p;
     totalPages := totalPages st |}.

Definition setSearchText (s : string) (st : State) : State :=
  {| videos := videos st; loading := loading st; nextCursor := nextCursor st;
     searchText := s; searchField := searchField st;
     filters := filters st; estimatedCount := estimatedCount st;
     filterCounts := filterCounts st; tempSearchText := tempSearchText st;
     appliedFilters := appliedFilters st; page := page st;
     totalPages := totalPages st |}.

Definition setSearchField (s : string) (st : State) : State :=
  {| videos := videos st; loading := loading st; nextCursor := nextCursor st;
     searchText := searchText st; searchField := s;
     filters := filters st; estimatedCount := estimatedCount st;
     filterCounts := filterCounts st; tempSearchText := tempSearchText st;
     appliedFilters := appliedFilters st; page := page st;
     totalPages := totalPages st |}.

Definition setFilters (f : Filters) (st : State) : State :=
  {| videos := videos st; loading := loading st; nextCursor := nextCursor st;
     searchText := searchText st; searchField := searchField st;
     filters := f; estimatedCount := estimatedCount st;
     filterCounts := filterCounts st; tempSearchText := tempSearchText st;
     appliedFilters := appliedFilters st; page := page st;
     totalPages := totalPages st |}.

Definition setEstimatedCount (n : option Z) (st : State) : State :=
  {| videos := videos st; loading := loading st; nextCursor := nextCursor st;
     searchText := searchText st; searchField := searchField st;
     filters := filters st; estimatedCount := n;
     filterCounts := filterCounts st; tempSearchText := tempSearchText st;
     appliedFilters := appliedFilters st; page := page st;
     totalPages := totalPages st |}.

Definition setFilterCounts (fc : FilterCounts) (st : State) : State :=
  {| videos := videos st; loading := loading st; nextCursor := nextCursor st;
     searchText := searchText st; searchField := searchField st;
     filters := filters st; estimatedCount := estimatedCount st;
     filterCounts := fc; tempSearchText := tempSearchText st;
     appliedFilters := appliedFilters st; page := page st;
     totalPages := totalPages st |}.

Definition setTempSearchText (s : string) (st : State) : State :=
  {| videos := videos st; loading := loading st; nextCursor := nextCursor st;
     searchText := searchText st; searchField := searchField st;
     filters := filters st; estimatedCount := estimatedCount st;
     filterCounts := filterCounts st; tempSearchText := s;
     appliedFilters := appliedFilters st; page := page st;
     totalPages := totalPages st |}.

Definition setAppliedFilters (l : list (string * string)) (st : State)
    : State :=
  {| videos := videos st; loading := loading st; nextCursor := nextCursor st;
     searchText := searchText st; searchField := searchField st;
     filters := filters st; estimatedCount := estimatedCount st;
     filterCounts := filterCounts st; tempSearchText := tempSearchText st;
     appliedFilters := l; page := page st;
     totalPages := totalPages st |}.

Definition setTotalPages (n : option Z) (st : State) : State :=
  {| videos := videos st; loading := loading st; nextCursor := nextCursor st;
     searchText := searchText st; searchField := searchField st;
     filters := filters st; estimatedCount := estimatedCount st;
     filterCounts := filterCounts st; tempSearchText := tempSearchText st;
     appliedFilters := appliedFilters st; page := page st;
     totalPages := n |}.

(** *** The backend, as the component sees it *)

(** The query parameters of a GET on the [videos] endpoint.  [fields]
    carries the [title], [description] and [transcriptText] parameters;
    [last_id] is [None] on a request that sends no cursor. *)
Record Params := {
  limit : Z;
  last_id : option string;
  fields : Filters;
  search : string;
  search_field : string;
}.

(** The body of a response of the [videos] endpoint.  [data],
    [filter_counts] and [next_cursor] are [None] when missing or [null] (the
    code reads each of them through [||]); [estimated_count] is [None] when
    missing. *)
Record Response := {
  data : option (list Video);
  filter_counts : option FilterCounts;
  estimated_count : option Z;
  next_cursor : option string;
}.

(** What a handler does to the outside world, in order. *)
Inductive Effect :=
| HttpGet (p : Params)
| HttpDelete (id : option string)
| HttpPut (id : option string) (body : Video)
| HttpPost (body : Video)
| Confirm (msg : string)
| Alert (msg : string)
| ConsoleError (msg : string)
| ScrollTo (top : Z)
| PreventDefault
| Close.

(** The backend answers the [n]-th GET of a handler run; [None] is a
    rejected promise (network failure or error status). *)
Definition Backend := nat -> Params -> option Response.

(** Truthiness of a cursor: [null], [undefined] and the empty string are
    falsy. *)
Definition cursorTruthy (c : option string) : bool :=
  match c with
  | Some s => JS.truthy s
  | None => false
  end.

(** [c || null] *)
Definition orNull (c : option string) : option string :=
  if cursorTruthy c then c else None.

(** [x || 0] on a count: a missing count gives 0 (and 0 stays 0). *)
Definition orZero (x : option Z) : option Z :=
  match x with
  | Some n => Some n
  | None => Some 0
  end.

(** [Math.ceil(a / b)] for integers [a] and [b > 0]. *)
Definition ceilDiv (a b : Z) : Z := - ((- a) / b).

(** *** fetchVideos *)

Definition listParams (st : State) (cursor : option string) : Params :=
  {| limit := PAGE_LIMIT; last_id := cursor; fields := filters st;
     search := searchText st; search_field := searchField st |}.

Definition fetchVideos (api : Backend) (st : State) : State * list Effect :=
  let params := listParams st None in
  match api O params with
  | Some res =>
      let newVideos := default [] (data res) in
      (setLoading false
         (setTotalPages
            ((fun n => ceilDiv n PAGE_LIMIT) <$> estimated_count res)
         (setEstimatedCount (estimated_count res)
         (setFilterCounts (default emptyCounts (filter_counts res))
         (setNextCursor (orNull (next_cursor res))
         (setVideos newVideos st))))),
       [HttpGet params])
  | None =>
      (setLoading false st,
       [HttpGet params; ConsoleError "Error fetching videos:"])
  end.

(** *** Filter logic *)

(** [v[key]?.toLowerCase().includes(text)], read as a condition. *)
Definition fieldIncludes (v : Video) (key text : string) : bool :=
  match v !! key with
  | Some s => JS.includes (JS.toLowerCase s) text
  | None => false
  end.

Definition getFilteredVideos (st : State) : list Video :=
  let filtered := videos st in
  let text := JS.toLowerCase (JS.trim (searchText st)) in
  if JS.truthy text then
    if String.eqb (searchField st) "search" then
      List.filter
        (fun v => fieldIncludes v "title" text
                  || fieldIncludes v "description" text
                  || fieldIncludes v "transcriptText" text)
        filtered
    else
      List.filter (fun v => fieldIncludes v (searchField st) text) filtered
  else
    fold_left
      (fun filtered '(key, val) =>
         if JS.truthy (JS.trim val) then
           List.filter
             (fun v => fieldIncludes v key (JS.toLowerCase (JS.trim val)))
             filtered
         else filtered)
      (entries (filters st)) filtered.

(** *** Pagination *)

(** [target > totalPages]; a comparison with [NaN] is false. *)
Definition gtPages (target : Z) (total : option Z) : bool :=
  match total with
  | Some n => n <? target
  | None => false
  end.

Definition pageGuard (st : State) (targetPage : Z) : bool :=
  (targetPage <? 1) || gtPages targetPage (totalPages st)
  || (targetPage =? page st).

Inductive LoopResult :=
| Finished (buffer : list Video) (cursor : option string)
| Threw.

(** The [while] loop of [handlePageChange].  [buffer] is the array
    [filteredVideos] of the current render, which the loop extends in place;
    [n] counts the requests issued so far.  The result is [None] when [fuel]
    iterations did not end the loop; otherwise it is how the loop ended and
    the requests it sent, in order. *)
Fixpoint fetchLoop (api : Backend) (st : State) (requiredDataCount : Z)
    (fuel n : nat) (buffer : list Video) (cursor : option string)
    : option (LoopResult * list Params) :=
  if (Z.of_nat (length buffer) <? requiredDataCount) && cursorTruthy cursor
  then
    match fuel with
    | O => None
    | S fuel' =>
        let params := listParams st cursor in
        match api n params with
        | None => Some (Threw, [params])
        | Some res =>
            let newVideos := default [] (data res) in
            match fetchLoop api st requiredDataCount fuel' (S n)
                    (buffer ++ newVideos) (orNull (next_cursor res)) with
            | Some (r, log) => Some (r, params :: log)
            | None => None
            end
        end
    end
  else Some (Finished buffer cursor, []).

Definition handlePageChange (api : Backend) (fuel : nat) (targetPage : Z)
    (st : State) : option (State * list Effect) :=
  if pageGuard st targetPage then Some (st, [])
  else
    let requiredDataCount := targetPage * PAGE_LIMIT in
    match fetchLoop api st requiredDataCount fuel O
            (getFilteredVideos st) (nextCursor st) with
    | None => None
    | Some (Finished buffer cursor, log) =>
        Some (setLoading false
                (setNextCursor cursor
                (setVideos buffer
                (setLoading true (setPage targetPage st)))),
              (HttpGet <$> log) ++ [ScrollTo 300])
    | Some (Threw, log) =>
        Some (setLoading false (setLoading true (setPage targetPage st)),
              (HttpGet <$> log)
              ++ [ConsoleError "Error loading page data:"; ScrollTo 300])
    end.

(** [l.slice(start, stop)]: a negative index counts from the end, and
    indices are clamped to the array. *)
Definition jsSlice {A} (start stop : Z) (l : list A) : list A :=
  let len := Z.of_nat (length l) in
  let rel i := if i <? 0 then Z.max (len + i) 0 else Z.min i len in
  take (Z.to_nat (rel stop - rel start)) (drop (Z.to_nat (rel start)) l).

(** The records the table body shows, one row each: none while loading
    (a single "Loading..." row) or when the filtered list is empty. *)
Definition tableRows (st : State) : list Video :=
  if loading st then []
  else
    let filteredVideos := getFilteredVideos st in
    if (0 <? length filteredVideos)%nat then
      jsSlice ((page st - 1) * PAGE_LIMIT) (page st * PAGE_LIMIT)
        filteredVideos
    else [].

(** *** Row actions *)

(** [confirmed] is the answer of the confirmation dialog, [http] the
    outcome of the DELETE. *)
Definition handleDelete (confirmed : bool) (http : option unit)
    (id : option string) (st : State) : State * list Effect :=
  let msg := "Are you sure to delete this video?" in
  if negb confirmed then (st, [Confirm msg])
  else
    match http with
    | Some _ =>
        (setVideos
           (List.filter (fun v => negb (bool_decide (_id v = id))) (videos st))
           st,
         [Confirm msg; HttpDelete id])
    | None =>
        (st, [Confirm msg; HttpDelete id; ConsoleError "Delete error:"])
    end.

(** *** Matched document count *)

Definition getMatchedDocumentCount (st : State) : option Z :=
  let fc := filterCounts st in
  if JS.truthy (JS.trim (searchText st)) then
    if String.eqb (searchField st) "title" then orZero (titleDocs fc)
    else if String.eqb (searchField st) "description" then orZero (descDocs fc)
    else if String.eqb (searchField st) "transcriptText" then
      orZero (transDocs fc)
    else if String.eqb (searchField st) "search" then orZero (totalDocs fc)
    else orZero (totalDocs fc)
  else if JS.truthy (JS.trim (title (filters st))) then orZero (titleDocs fc)
  else if JS.truthy (JS.trim (description (filters st))) then
    orZero (descDocs fc)
  else if JS.truthy (JS.trim (transcriptText (filters st))) then
    orZero (transDocs fc)
  else estimatedCount st.

(** *** The Reset button *)

Definition reset (st : State) : State :=
  setEstimatedCount (Some (Z.of_nat (length (videos st))))
    (setPage 1
    (setAppliedFilters []
    (setFilters noFilters
    (setSearchText ""
    (setTempSearchText "" st))))).

(** *** Further handlers and derived values of the component *)

(** [hasFilters]: some filter box or the search query is non-empty after
    trimming. *)
Definition hasFilters (st : State) : bool :=
  existsb (fun value => negb (String.eqb (JS.trim value) ""))
    (snd <$> entries (filters st))
  || negb (String.eqb (JS.trim (searchText st)) "").

(** The keys of the [filters] object.  [handleFilterChange] is modelled for
    a [field] that is one of them. *)
Inductive FilterKey := TitleKey | DescriptionKey | TranscriptTextKey.

Definition keyName (k : FilterKey) : string :=
  match k with
  | TitleKey => "title"
  | DescriptionKey => "description"
  | TranscriptTextKey => "transcriptText"
  end.

(** [{ ...prev, [field]: value }] *)
Definition setFilter (k : FilterKey) (value : string) (prev : Filters)
    : Filters :=
  match k with
  | TitleKey =>
      {| title := value; description := description prev;
         transcriptText := transcriptText prev |}
  | DescriptionKey =>
      {| title := title prev; description := value;
         transcriptText := transcriptText prev |}
  | TranscriptTextKey =>
      {| title := title prev; description := description prev;
         transcriptText := value |}
  end.

(** [filters[field]] *)
Definition getFilter (k : FilterKey) (f : Filters) : string :=
  match k with
  | TitleKey => title f
  | DescriptionKey => description f
  | TranscriptTextKey => transcriptText f
  end.

(** An entry of [appliedFilters] is the pair of its [field] and [value]. *)
Definition handleFilterChange (field : FilterKey) (value : string)
    (st : State) : State :=
  let updatedFilters :=
    List.filter (fun f => negb (String.eqb (fst f) (keyName field)))
      (appliedFilters st) in
  let updatedFilters :=
    if JS.truthy (JS.trim value)
    then updatedFilters ++ [(keyName field, value)]
    else updatedFilters in
  setAppliedFilters updatedFilters
    (setFilters (setFilter field value (filters st)) st).

(** The [filter_counts] endpoint: the counts for a search text, or [None]
    when the request fails. *)
Definition CountsBackend := string -> option FilterCounts.

Inductive CountsEffect :=
| HttpGetCounts (search : string)
| CountsConsoleError (msg : string).

Definition fetchFilterCounts (capi : CountsBackend) (st : State)
    : State * list CountsEffect :=
  if negb (JS.truthy (JS.trim (searchText st))) then
    (setFilterCounts zeroCounts st, [])
  else
    match capi (searchText st) with
    | Some counts =>
        (setFilterCounts counts st, [HttpGetCounts (searchText st)])
    | None =>
        (st, [HttpGetCounts (searchText st);
              CountsConsoleError "Filter Count Error:"])
    end.

(** The serial number shown in the first column of row [idx]. *)
Definition serialNumber (st : State) (idx : nat) : Z :=
  (page st - 1) * PAGE_LIMIT + Z.of_nat idx + 1.

(** *** The pagination bar *)

Inductive PageButton :=
| PageNumber (p : Z)
| Ellipsis.

(** The values of [p] in [for (let p = a; p <= b; p++)]. *)
Definition loopRange (a b : Z) : list Z :=
  (fun i => a + Z.of_nat i) <$> seq 0 (Z.to_nat (b - a + 1)).

(** The buttons between Previous and Next.  With [totalPages] being [NaN]
    every comparison with it is false and [Math.min] gives [NaN]: the loop
    does not run and only the first button and the leading ellipsis are
    left. *)
Definition paginationButtons (page : Z) (totalPages : option Z)
    : list PageButton :=
  let maxVisible := 7 in
  match totalPages with
  | Some total =>
      let startPage := Z.max 2 (page - 2) in
      let endPage := Z.min (total - 1) (page + 2) in
      let endPage :=
        if page <=? 4 then Z.min (maxVisible - 1) (total - 1) else endPage in
      let startPage :=
        if total - 3 <=? page then Z.max (total - (maxVisible - 2)) 2
        else startPage in
      [PageNumber 1]
      ++ (if 2 <? startPage then [Ellipsis] else [])
      ++ (PageNumber <$> loopRange startPage endPage)
      ++ (if endPage <? total - 1 then [Ellipsis] else [])
      ++ (if 1 <? total then [PageNumber total] else [])
  | None =>
      let startPage := Z.max 2 (page - 2) in
      [PageNumber 1] ++ (if 2 <? startPage then [Ellipsis] else [])
  end.

(** The final values of [startPage] and [endPage] in the pagination bar,
    for a numeric [totalPages]. *)
Definition startPage (page total : Z) : Z :=
  if total - 3 <=? page then Z.max (total - (7 - 2)) 2
  else Z.max 2 (page - 2).

Definition endPage (page total : Z) : Z :=
  if page <=? 4 then Z.min (7 - 1) (total - 1)
  else Z.min (total - 1) (page + 2).

(** The page numbers among the buttons, in order. *)
Definition buttonPages (buttons : list PageButton) : list Z :=
  omap (fun b => match b with PageNumber p => Some p | Ellipsis => None end)
    buttons.

(** [disabled] of the Previous and Next buttons. *)
Definition previousDisabled (st : State) : bool := page st =? 1.

Definition nextDisabled (st : State) : bool :=
  match totalPages st with
  | Some total => page st =? total
  | None => false
  end.

(** *** Predicates used to state the properties *)

(** One per-field filter box, as the loop body of [getFilteredVideos]
    applies it: a box that is empty after trimming lets every record
    through. *)
Definition passesBox (v : Video) (box : string * string) : bool :=
  let '(key, val) := box in
  if JS.truthy (JS.trim val) then
    fieldIncludes v key (JS.toLowerCase (JS.trim val))
  else true.

(** The condition under which [getFilteredVideos] keeps a record. *)
Definition keeps (st : State) (v : Video) : bool :=
  let text := JS.toLowerCase (JS.trim (searchText st)) in
  if JS.truthy text then
    if String.eqb (searchField st) "search" then
      fieldIncludes v "title" text
      || fieldIncludes v "description" text
      || fieldIncludes v "transcriptText" text
    else fieldIncludes v (searchField st) text
  else forallb (passesBox v) (entries (filters st)).

(** No search query and no filter box is active. *)
Definition unfiltered (st : State) : Prop :=
  JS.trim (searchText st) = ""
  /\ JS.trim (title (filters st)) = ""
  /\ JS.trim (description (filters st)) = ""
  /\ JS.trim (transcriptText (filters st)) = "".

(** The backend makes progress: a response that hands out a further
    cursor carries at least one record. *)
Definition progresses (api : Backend) : Prop :=
  forall n p res,
    api n p = Some res ->
    cursorTruthy (next_cursor res) = true ->
    default [] (data res) <> [].

(** The requests [log], sent from request number [n] on, chain the
    cursors: each one sends as [last_id] the cursor seen last, the first one
    [cursor], and a failed request is the last one. *)
Fixpoint cursorChain (api : Backend) (n : nat) (cursor : option string)
    (log : list Params) : Prop :=
  match log with
  | [] => True
  | p :: rest =>
      last_id p = cursor
      /\ match api n p with
         | Some res => cursorChain api (S n) (orNull (next_cursor res)) rest
         | None => rest = []
         end
  end.

(** The answers of the backend to the requests [log], replayed from request
    number [n] on a buffer and a cursor: each response appends its records to
    the buffer and replaces the cursor by its [next_cursor || null].  The
    result is the buffer and the cursor after the last response, [None] when
    one of the requests fails. *)
Fixpoint replay (api : Backend) (n : nat) (buffer : list Video)
    (cursor : option string) (log : list Params)
    : option (list Video * option string) :=
  match log with
  | [] => Some (buffer, cursor)
  | p :: rest =>
      match api n p with
      | Some res =>
          replay api (S n) (buffer ++ default [] (data res))
            (orNull (next_cursor res)) rest
      | None => None
      end
  end.

(** The requests [log] are those of a walk that starts from [buffer] and
    [cursor]: each request is sent while the buffer holds fewer than
    [required] records and the cursor is non-empty, it carries the limit, the
    filters, the search and that cursor as [last_id], and the walk goes on
    from the buffer and the cursor its response leaves; a failed request is
    the last one. *)
Fixpoint loopTrace (api : Backend) (st : State) (required : Z) (n : nat)
    (buffer : list Video) (cursor : option string) (log : list Params)
    : Prop :=
  match log with
  | [] => True
  | p :: rest =>
      Z.of_nat (length buffer) < required
      /\ cursorTruthy cursor = true
      /\ p = listParams st cursor
      /\ match api n p with
         | Some res =>
             loopTrace api st required (S n)
               (buffer ++ default [] (data res))
               (orNull (next_cursor res)) rest
         | None => rest = []
         end
  end.

End App.

(** ** The Add/Edit modal *)
Module AddEditModal.
Import App.

(** [{ ...item, ...formData }]: the properties of [formData] win. *)
Definition spread (item formData : Video) : Video := formData ∪ item.

(** [handleSubmit] as a transformer of the list behind [setVideos].
    [video] is the record being edited ([None] for the Add modal), [http]
    the outcome of the PUT or POST: the response body, or [None] when the
    call failed. *)
Definition handleSubmit (video : option Video) (formData : Video)
    (http : option Video) (prev : list Video) : list Video * list Effect :=
  match video with
  | Some edited =>
      match http with
      | Some _ =>
          ((fun item =>
              if bool_decide (_id item = _id edited)
              then spread item formData else item) <$> prev,
           [PreventDefault; HttpPut (_id edited) formData; Close])
      | None =>
          (prev,
           [PreventDefault; HttpPut (_id edited) formData;
            ConsoleError "Save error:"; Alert "Failed to save item"])
      end
  | None =>
      match http with
      | Some res =>
          (res :: prev, [PreventDefault; HttpPost formData; Close])
      | None =>
          (prev,
           [PreventDefault; HttpPost formData;
            ConsoleError "Save error:"; Alert "Failed to save item"])
      end
  end.

(** The submission seen from the dashboard, whose [setVideos] the modal
    received as a prop. *)
Definition submit (video : option Video) (formData : Video)
    (http : option Video) (st : State) : State * list Effect :=
  let '(vs, effects) := handleSubmit video formData http (videos st) in
  (setVideos vs st, effects).

(** The keys of [FIELDS], in order. *)
Definition FIELDS : list string :=
  ["Id"; "title"; "description"; "publishedAt"; "viewCount"; "sourceUrl";
   "transcriptText"].

(** The form data the effect on [video] installs: [video[key] ?? ""] for
    each key of [FIELDS] when a record is edited, the empty form otherwise. *)
Definition initForm (video : option Video) : Video :=
  match video with
  | Some v => list_to_map ((fun key => (key, default "" (v !! key))) <$> FIELDS)
  | None => list_to_map ((fun key => (key, "")) <$> FIELDS)
  end.

(** [handleChange] on an input with the given [name] and [value]. *)
Definition handleChange (name value : string) (formData : Video) : Video :=
  <[name := value]> formData.

Definition handleEditorChange (value : string) (formData : Video) : Video :=
  <["transcriptText" := value]> formData.

(** The form data while the modal is open on [video]: the initial form,
    changed by the text inputs (one per key of [FIELDS]) and by the transcript
    editor. *)
Inductive formState (video : option Video) : Video -> Prop :=
| form_init : formState video (initForm video)
| form_change name value formData :
    name ∈ FIELDS ->
    formState video formData ->
    formState video (handleChange name value formData)
| form_editor value formData :
    formState video formData ->
    formState video (handleEditorChange value formData).

End AddEditModal.

(** ** The video modal *)
Module VideoModal.

(** [getVideoId].  [url] is [None] when the record has no [sourceUrl];
    [searchParamV url] stands for [new URL(url).searchParams.get("v")], with
    [None] for [null] and for a URL that does not parse. *)
Definition getVideoId (searchParamV : string -> option string)
    (url : option string) : option string :=
  match url with
  | None => None
  | Some u =>
      if negb (JS.truthy u) then None
      else if JS.includes u "youtu.be" then last (JS.splitChar "/" u)
      else searchParamV u
  end.

End VideoModal.

(** ** The dashboard as a transition system *)
Module Flow.
Import App.

(** One state change of the dashboard: a fetch that settled, a row action,
    a submission of the modal, or a control of the search card. *)
Inductive step : State -> State -> Prop :=
| step_fetchVideos api st :
    step st (fst (fetchVideos api st))
| step_fetchFilterCounts capi st :
    step st (fst (fetchFilterCounts capi st))
| step_handlePageChange api fuel targetPage st st' effects :
    handlePageChange api fuel targetPage st = Some (st', effects) ->
    step st st'
| step_handleDelete confirmed http id st :
    step st (fst (handleDelete confirmed http id st))
| step_submit video formData http st :
    step st (fst (AddEditModal.submit video formData http st))
| step_handleFilterChange field value st :
    step st (handleFilterChange field value st)
| step_searchField value st :
    step st (setSearchField value st)
| step_tempSearchText value st :
    step st (setTempSearchText value st)
| step_applySearch st :
    step st (setSearchText (tempSearchText st) st)
| step_reset st :
    step st (reset st).

Inductive reachable : State -> Prop :=
| reachable_initial : reachable initial
| reachable_step st st' : reachable st -> step st st' -> reachable st'.

(** The cursor is [null] or a non-empty string. *)
Definition cursorNormal (c : option string) : Prop :=
  c = None \/ cursorTruthy c = true.

(** The chips of [appliedFilters] are the filter boxes that are non-empty
    after trimming. *)
Definition chipsMirrorFilters (st : State) : Prop :=
  forall field value,
    In (field, value) (appliedFilters st)
    <-> exists k, field = keyName k
                  /\ value = getFilter k (filters st)
                  /\ JS.trim value <> "".

End Flow.

(** ** Concrete records, states and backends used in the examples *)
Module Samples.
Import App.

Definition cat : Video :=
  list_to_map [("_id", "1"); ("title", "Cat videos");
               ("description", "Kittens at play")].

Definition dog : Video :=
  list_to_map [("_id", "2"); ("title", "Dog tricks");
               ("transcriptText", "<p>Sit. Stay.</p>")].

Definition bird : Video :=
  list_to_map [("_id", "3"); ("title", "Bird song")].

Definition loaded : State := setVideos [cat; dog] initial.

(** The user searched for "cat" in any field. *)
Definition searching : State :=
  setSearchField "search" (setSearchText "cat" loaded).

Definition boxes : Filters :=
  {| title := "dog"; description := ""; transcriptText := "sit" |}.

Definition someCounts : FilterCounts :=
  {| titleDocs := Some 11; descDocs := Some 22; transDocs := Some 33;
     totalDocs := Some 44 |}.

(** A backend whose list response has no [filter_counts]. *)
Definition bareBackend : Backend :=
  fun _ _ =>
    Some {| data := Some [cat; dog]; filter_counts := None;
            estimated_count := Some 2; next_cursor := None |}.

(** The state after the list was fetched from [bareBackend] while the user
    searched for "cat" in any field. *)
Definition afterBareFetch : State :=
  fst (fetchVideos bareBackend
         (setSearchField "search" (setSearchText "cat" initial))).

(** Two filter boxes in use, the counts missing. *)
Definition twoBoxesNoCounts : State :=
  setFilters {| title := "dog"; description := "sit"; transcriptText := "" |}
    (fst (fetchVideos bareBackend initial)).

(** A title box that holds only a blank, and a description box. *)
Definition blankTitleBox : State :=
  setFilterCounts someCounts
    (setFilters {| title := " "; description := "sit"; transcriptText := "" |}
       loaded).

(** A backend that never has a record to give but always hands out a
    further cursor. *)
Definition stuckBackend : Backend :=
  fun _ _ =>
    Some {| data := Some []; filter_counts := None;
            estimated_count := Some 2000; next_cursor := Some "c" |}.

Definition stuckState : State := fst (fetchVideos stuckBackend initial).

(** A backend that gives one record per request and whose cursor is
    exhausted with the third request of a run. *)
Definition finiteBackend : Backend :=
  fun n _ =>
    Some {| data := Some [bird]; filter_counts := None;
            estimated_count := Some 3000;
            next_cursor := if (n <? 2)%nat then Some "more" else None |}.

Definition finiteState : State := fst (fetchVideos finiteBackend initial).

(** A record that has every field of the form. *)
Definition full : Video :=
  list_to_map [("_id", "4"); ("Id", "v4"); ("title", "Fish tank");
               ("description", "Calm water"); ("publishedAt", "2024-01-01");
               ("viewCount", "12"); ("sourceUrl", "https://youtu.be/fish");
               ("transcriptText", "<p>Bubbles</p>")].

End Samples.

Example splitWs_edges :
  JS.splitWs " a  b " = [""; "a"; "b"; ""] /\ JS.splitWs "" = [""].
Proof. split; reflexivity. Qed.

Example stripTags_unclosed :
  JS.stripTags "a<b" = "a<b" /\ JS.stripTags "<a<b>c" = "c"
  /\ JS.stripTags "x<i>y</i>>z" = "xy>z".
Proof. repeat split; reflexivity. Qed.

Example trim_both_ends : JS.trim "  Cat videos  " = "Cat videos".
Proof. reflexivity. Qed.

(** C7: on the editor content [<p>Hello world</p>] the computed word count is
    2 and the computed character count is 11. *)
Theorem counts_hello_world :
  VisualEditor.wordCount "<p>Hello world</p>" = 2%nat
  /\ VisualEditor.charCount "<p>Hello world</p>" = 11%nat.
Proof. split; vm_compute; reflexivity. Qed.

(** ** Properties of the string primitives *)

Lemma truthy_true_iff (s : string) : JS.truthy s = true <-> s <> "".
Proof. destruct s; simpl; split; intros; congruence. Qed.

Lemma truthy_false_iff (s : string) : JS.truthy s = false <-> s = "".
Proof. destruct s; simpl; split; intros; congruence. Qed.

Lemma truthy_toLowerCase (s : string) :
  JS.truthy (JS.toLowerCase s) = JS.truthy s.
Proof. destruct s; reflexivity. Qed.

(** ** Properties of the state setters *)

Lemma setVideos_same (st : App.State) : App.setVideos (App.videos st) st = st.
Proof. destruct st; reflexivity. Qed.

(** ** The filtered view *)

Lemma filter_filter_andb {A} (p q : A -> bool) (l : list A) :
  List.filter p (List.filter q l) = List.filter (fun x => q x && p x) l.
Proof.
  induction l as [|x l IH]; simpl; [reflexivity|].
  destruct (q x); simpl; [destruct (p x)|]; rewrite IH; reflexivity.
Qed.

Lemma filter_ext_bool {A} (p q : A -> bool) (l : list A) :
  (forall x, p x = q x) -> List.filter p l = List.filter q l.
Proof.
  intros E. induction l as [|x l IH]; simpl; [reflexivity|].
  rewrite E, IH. reflexivity.
Qed.

Lemma filter_true {A} (l : list A) : List.filter (fun _ => true) l = l.
Proof. induction l as [|x l IH]; simpl; congruence. Qed.

(** The per-field boxes are applied one after the other; together they keep
    the records that pass each of them. *)
Lemma fold_boxes (boxes : list (string * string)) (l : list App.Video) :
  fold_left
    (fun filtered '(key, val) =>
       if JS.truthy (JS.trim val) then
         List.filter
           (fun v => App.fieldIncludes v key (JS.toLowerCase (JS.trim val)))
           filtered
       else filtered)
    boxes l
  = List.filter (fun v => forallb (App.passesBox v) boxes) l.
Proof.
  revert l. induction boxes as [|[key val] boxes IH]; intros l; simpl.
  - symmetry. apply filter_true.
  - rewrite IH. destruct (JS.truthy (JS.trim val)) eqn:E.
    + rewrite filter_filter_andb. reflexivity.
    + reflexivity.
Qed.

Lemma getFilteredVideos_keeps (st : App.State) :
  App.getFilteredVideos st = List.filter (App.keeps st) (App.videos st).
Proof.
  unfold App.getFilteredVideos, App.keeps.
  destruct (JS.truthy (JS.toLowerCase (JS.trim (App.searchText st)))).
  - destruct (String.eqb (App.searchField st) "search"); reflexivity.
  - apply fold_boxes.
Qed.

Lemma keeps_unfiltered (st : App.State) (v : App.Video) :
  App.unfiltered st -> App.keeps st v = true.
Proof.
  intros (Hq & Ht & Hd & Hx). unfold App.keeps.
  rewrite Hq. simpl. unfold App.passesBox. rewrite Ht, Hd, Hx. reflexivity.
Qed.

Example getFilteredVideos_search :
  App.getFilteredVideos Samples.searching = [Samples.cat]
  /\ App.getFilteredVideos (App.setFilters Samples.boxes Samples.loaded)
     = [Samples.dog].
Proof. split; reflexivity. Qed.

(** C9: with a search query that is non-empty after trimming, the filtered
    view does not depend on the three per-field filters: any two filter
    settings give the same view, and the view is determined by the loaded
    records, the query and the search field. *)
Theorem getFilteredVideos_search_ignores_filters (st : App.State) :
  JS.trim (App.searchText st) <> "" ->
  (forall f1 f2,
      App.getFilteredVideos (App.setFilters f1 st)
      = App.getFilteredVideos (App.setFilters f2 st))
  /\ (forall st',
         App.videos st' = App.videos st ->
         App.searchText st' = App.searchText st ->
         App.searchField st' = App.searchField st ->
         App.getFilteredVideos st' = App.getFilteredVideos st).
Proof.
  intros Hq.
  assert (Ht : JS.truthy (JS.toLowerCase (JS.trim (App.searchText st))) = true).
  { rewrite truthy_toLowerCase. apply truthy_true_iff, Hq. }
  assert (Hdep : forall st',
             App.videos st' = App.videos st ->
             App.searchText st' = App.searchText st ->
             App.searchField st' = App.searchField st ->
             App.getFilteredVideos st' = App.getFilteredVideos st).
  { intros st' Hv Hs Hf. unfold App.getFilteredVideos.
    rewrite Hv, Hs, Hf, Ht. reflexivity. }
  split; [|exact Hdep].
  intros f1 f2. rewrite (Hdep (App.setFilters f1 st)) by reflexivity.
  symmetry. apply Hdep; reflexivity.
Qed.

Lemma getFilteredVideos_search_ignores_filters_witness :
  App.getFilteredVideos (App.setFilters Samples.boxes Samples.searching)
  = App.getFilteredVideos (App.setFilters App.noFilters Samples.searching).
Proof.
  refine (proj1 (getFilteredVideos_search_ignores_filters Samples.searching _)
                Samples.boxes App.noFilters).
  vm_compute. discriminate.
Defined.

(** C6: after Reset the search query and the three per-field filters are
    empty and the filtered view is the loaded list itself, whatever filter
    values had been applied before. *)
Theorem reset_shows_loaded_list
    (st : App.State) (f : App.Filters) (loadedVideos : list App.Video) :
  App.searchText (App.reset st) = ""
  /\ App.filters (App.reset st) = App.noFilters
  /\ App.getFilteredVideos (App.reset st) = App.videos st
  /\ App.getFilteredVideos (App.reset (App.setFilters f st)) = App.videos st
  /\ App.getFilteredVideos (App.setVideos loadedVideos (App.reset st))
     = loadedVideos.
Proof. repeat split. Qed.

(** C8: a page change to a target below 1, above [totalPages] or equal to
    the current page returns at once: the state is unchanged and no effect (in
    particular no fetch) is issued. *)
Theorem handlePageChange_guard_noop
    (api : App.Backend) (fuel : nat) (targetPage : Z) (st : App.State) :
  targetPage < 1
  \/ (exists n, App.totalPages st = Some n /\ n < targetPage)
  \/ targetPage = App.page st ->
  App.handlePageChange api fuel targetPage st = Some (st, []).
Proof.
  intros H. unfold App.handlePageChange.
  assert (G : App.pageGuard st targetPage = true).
  { unfold App.pageGuard, App.gtPages.
    destruct H as [H | [(n & Hn & H) | H]].
    - apply Z.ltb_lt in H. rewrite H. reflexivity.
    - rewrite Hn. apply Z.ltb_lt in H. rewrite H.
      apply orb_true_iff. left. apply orb_true_r.
    - apply Z.eqb_eq in H. rewrite H. apply orb_true_r. }
  rewrite G. reflexivity.
Qed.

Lemma handlePageChange_guard_noop_witness :
  App.handlePageChange (fun _ _ => None) 0 5 App.initial
  = Some (App.initial, []).
Proof.
  apply handlePageChange_guard_noop.
  right. left. exists 1. split; [reflexivity | lia].
Defined.

(** C2: when the HTTP call of a create or update submission fails, the
    failure is reported by an alert, the modal is not closed, and the videos
    list (indeed the whole dashboard state) is left as it was. *)
Theorem handleSubmit_failure_keeps_videos
    (video : option App.Video) (formData : App.Video)
    (prev : list App.Video) (st : App.State) :
  fst (AddEditModal.handleSubmit video formData None prev) = prev
  /\ fst (AddEditModal.submit video formData None st) = st
  /\ In (App.Alert "Failed to save item")
        (snd (AddEditModal.submit video formData None st))
  /\ ~ In App.Close (snd (AddEditModal.submit video formData None st)).
Proof.
  unfold AddEditModal.submit, AddEditModal.handleSubmit.
  destruct video as [edited|]; simpl; rewrite setVideos_same;
    (repeat split; [tauto | intros H; intuition discriminate]).
Qed.

(** ** Deleting a row *)




Example handleDelete_sample :
  App.videos (fst (App.handleDelete true (Some tt) (Some "2") Samples.loaded))
  = [Samples.cat]
  /\ App.handleDelete false (Some tt) (Some "2") Samples.loaded
     = (Samples.loaded, [App.Confirm "Are you sure to delete this video?"])
  /\ fst (App.handleDelete true None (Some "2") Samples.loaded)
     = Samples.loaded.
Proof. repeat split. Qed.

(** ** The matched document count *)

Example getMatchedDocumentCount_samples :
  App.getMatchedDocumentCount
    (App.setFilterCounts Samples.someCounts Samples.searching) = Some 44
  /\ App.getMatchedDocumentCount
       (App.setFilterCounts Samples.someCounts
          (App.setFilters Samples.boxes Samples.loaded)) = Some 11
  /\ App.getMatchedDocumentCount Samples.loaded = Some 0.
Proof. repeat split. Qed.

(** C5 fails as stated: after a list response without [filter_counts] the
    state holds the empty counts object, and with an any-field search active
    the matched count is 0 while [filterCounts.totalDocs] is undefined. *)
Lemma getMatchedDocumentCount_totalDocs_missing :
  JS.trim (App.searchText Samples.afterBareFetch) <> ""
  /\ App.searchField Samples.afterBareFetch = "search"
  /\ App.totalDocs (App.filterCounts Samples.afterBareFetch) = None
  /\ App.getMatchedDocumentCount Samples.afterBareFetch = Some 0
  /\ App.getMatchedDocumentCount Samples.afterBareFetch
     <> App.totalDocs (App.filterCounts Samples.afterBareFetch).
Proof. vm_compute. repeat split; discriminate. Qed.

(** C5, amended: with a search query that is non-empty after trimming and
    the any-field option selected, the matched count is
    [filterCounts.totalDocs] when that count is present, and 0 when it is
    missing. *)
Theorem getMatchedDocumentCount_any_field (st : App.State) :
  JS.trim (App.searchText st) <> "" ->
  App.searchField st = "search" ->
  App.getMatchedDocumentCount st
  = App.orZero (App.totalDocs (App.filterCounts st))
  /\ (forall n, App.totalDocs (App.filterCounts st) = Some n ->
                App.getMatchedDocumentCount st = Some n)
  /\ (App.totalDocs (App.filterCounts st) = None ->
      App.getMatchedDocumentCount st = Some 0).
Proof.
  intros Hq Hf.
  assert (E : App.getMatchedDocumentCount st
              = App.orZero (App.totalDocs (App.filterCounts st))).
  { unfold App.getMatchedDocumentCount.
    apply truthy_true_iff in Hq. rewrite Hq, Hf. reflexivity. }
  rewrite E. repeat split.
  - intros n ->. reflexivity.
  - intros ->. reflexivity.
Qed.

Lemma getMatchedDocumentCount_any_field_witness :
  App.getMatchedDocumentCount
    (App.setFilterCounts Samples.someCounts Samples.searching)
  = App.orZero (App.totalDocs Samples.someCounts).
Proof.
  refine (proj1 (getMatchedDocumentCount_any_field
                   (App.setFilterCounts Samples.someCounts Samples.searching)
                   _ _)).
  - vm_compute. discriminate.
  - reflexivity.
Defined.

(** C10 fails as stated, in two ways.  With the counts object empty, a
    non-empty title box gives 0, not the undefined [filterCounts.titleDocs];
    and a title box that is not empty but blank is passed over, so that the
    description count is returned. *)
Lemma getMatchedDocumentCount_precedence_fails :
  (App.searchText Samples.twoBoxesNoCounts = ""
   /\ App.title (App.filters Samples.twoBoxesNoCounts) <> ""
   /\ App.description (App.filters Samples.twoBoxesNoCounts) <> ""
   /\ App.getMatchedDocumentCount Samples.twoBoxesNoCounts
      <> App.titleDocs (App.filterCounts Samples.twoBoxesNoCounts))
  /\ (App.searchText Samples.blankTitleBox = ""
      /\ App.title (App.filters Samples.blankTitleBox) <> ""
      /\ App.description (App.filters Samples.blankTitleBox) <> ""
      /\ App.getMatchedDocumentCount Samples.blankTitleBox
         = App.descDocs (App.filterCounts Samples.blankTitleBox)
      /\ App.getMatchedDocumentCount Samples.blankTitleBox
         <> App.titleDocs (App.filterCounts Samples.blankTitleBox)).
Proof. vm_compute. repeat split; discriminate. Qed.

(** C10, amended: with a search query that is empty after trimming, the
    matched count follows the precedence title, description, transcript over
    the filter boxes that are non-empty after trimming: it is the count of the
    first such box (0 when that count is missing), whatever the later boxes
    and their counts are. *)
Theorem getMatchedDocumentCount_box_precedence (st : App.State) :
  JS.trim (App.searchText st) = "" ->
  (JS.trim (App.title (App.filters st)) <> "" ->
   App.getMatchedDocumentCount st
   = App.orZero (App.titleDocs (App.filterCounts st)))
  /\ (JS.trim (App.title (App.filters st)) = "" ->
      JS.trim (App.description (App.filters st)) <> "" ->
      App.getMatchedDocumentCount st
      = App.orZero (App.descDocs (App.filterCounts st)))
  /\ (JS.trim (App.title (App.filters st)) = "" ->
      JS.trim (App.description (App.filters st)) = "" ->
      JS.trim (App.transcriptText (App.filters st)) <> "" ->
      App.getMatchedDocumentCount st
      = App.orZero (App.transDocs (App.filterCounts st))).
Proof.
  intros Hq. unfold App.getMatchedDocumentCount. rewrite Hq. simpl.
  repeat split.
  - intros Ht. apply truthy_true_iff in Ht. rewrite Ht. reflexivity.
  - intros Ht Hd. apply truthy_true_iff in Hd. rewrite Ht, Hd. reflexivity.
  - intros Ht Hd Hx. apply truthy_true_iff in Hx. rewrite Ht, Hd, Hx.
    reflexivity.
Qed.

Lemma getMatchedDocumentCount_box_precedence_witness :
  App.getMatchedDocumentCount
    (App.setFilterCounts Samples.someCounts
       (App.setFilters Samples.boxes Samples.loaded))
  = App.orZero (App.titleDocs Samples.someCounts).
Proof.
  refine (proj1 (getMatchedDocumentCount_box_precedence
                   (App.setFilterCounts Samples.someCounts
                      (App.setFilters Samples.boxes Samples.loaded)) _) _).
  - reflexivity.
  - vm_compute. discriminate.
Defined.

(** ** Creating a record *)

Lemma jsSlice_first_page {A} (x : A) (l : list A) :
  hd_error
    (App.jsSlice ((1 - 1) * App.PAGE_LIMIT) (1 * App.PAGE_LIMIT) (x :: l))
  = Some x.
Proof.
  unfold App.jsSlice, App.PAGE_LIMIT. cbn [length].
  change ((1 - 1) * 1000) with 0. change (1 * 1000) with 1000.
  change (0 <? 0) with false. change (1000 <? 0) with false. cbv iota.
  rewrite (Z.min_l 0) by lia. change (Z.to_nat 0) with O.
  cbn [drop]. rewrite Z.sub_0_r.
  destruct (Z.to_nat (Z.min 1000 (Z.of_nat (S (length l))))) eqn:E.
  - lia.
  - reflexivity.
Qed.

Example create_sample :
  fst (AddEditModal.handleSubmit None Samples.bird (Some Samples.bird)
         [Samples.cat; Samples.dog])
  = [Samples.bird; Samples.cat; Samples.dog]
  /\ fst (AddEditModal.handleSubmit (Some Samples.dog)
            (list_to_map [("title", "Dog school")]) (Some Samples.dog)
            [Samples.cat; Samples.dog])
     = [Samples.cat;
        list_to_map [("_id", "2"); ("title", "Dog school");
                     ("transcriptText", "<p>Sit. Stay.</p>")]].
Proof. split; reflexivity. Qed.

(** C3 fails as stated: while a search for "cat" is active, a created record
    that does not match it is prepended to the videos list but is not in the
    filtered view, so the first row of the table is another record. *)
Lemma create_hidden_by_search :
  App.videos
    (fst (AddEditModal.submit None Samples.bird (Some Samples.bird)
            Samples.searching))
  = Samples.bird :: App.videos Samples.searching
  /\ App.tableRows
       (fst (AddEditModal.submit None Samples.bird (Some Samples.bird)
               Samples.searching))
     = [Samples.cat]
  /\ hd_error
       (App.tableRows
          (fst (AddEditModal.submit None Samples.bird (Some Samples.bird)
                  Samples.searching)))
     <> Some Samples.bird.
Proof. split; [reflexivity|]. split; [reflexivity|]. compute_done. Qed.

(** C3, amended: on every successful create the record returned by the POST
    is prepended to the videos list, nothing else of the state changes, and
    the modal is closed.  The record is the first entry of the filtered view
    exactly when it passes the active local search or filter (as it does when
    none is active) and is left out of the view otherwise; when it passes, it
    is also the first row of the table provided page 1 is shown and the list
    is not loading. *)
Theorem create_prepends_record
    (st : App.State) (formData res : App.Video) :
  AddEditModal.submit None formData (Some res) st
  = (App.setVideos (res :: App.videos st) st,
     [App.PreventDefault; App.HttpPost formData; App.Close])
  /\ App.videos (fst (AddEditModal.submit None formData (Some res) st))
     = res :: App.videos st
  /\ App.getFilteredVideos
       (fst (AddEditModal.submit None formData (Some res) st))
     = (if App.keeps st res then res :: App.getFilteredVideos st
        else App.getFilteredVideos st)
  /\ (App.unfiltered st \/ App.keeps st res = true ->
      App.getFilteredVideos
        (fst (AddEditModal.submit None formData (Some res) st))
      = res :: App.getFilteredVideos st
      /\ (App.loading st = false ->
          App.page st = 1 ->
          hd_error
            (App.tableRows
               (fst (AddEditModal.submit None formData (Some res) st)))
          = Some res)).
Proof.
  assert (F : App.getFilteredVideos
                (fst (AddEditModal.submit None formData (Some res) st))
              = (if App.keeps st res then res :: App.getFilteredVideos st
                 else App.getFilteredVideos st)).
  { rewrite !getFilteredVideos_keeps. simpl.
    change (App.keeps (App.setVideos (res :: App.videos st) st))
      with (App.keeps st).
    destruct (App.keeps st res); reflexivity. }
  split; [reflexivity|]. split; [reflexivity|]. split; [exact F|].
  intros H.
  assert (K : App.keeps st res = true).
  { destruct H as [H|H]; [apply keeps_unfiltered, H | exact H]. }
  rewrite K in F. split; [exact F|].
  intros Hl Hp. unfold App.tableRows. rewrite F.
  change (App.loading (fst (AddEditModal.submit None formData (Some res) st)))
    with (App.loading st).
  change (App.page (fst (AddEditModal.submit None formData (Some res) st)))
    with (App.page st).
  rewrite Hl, Hp. cbn [length Nat.ltb Nat.leb].
  apply jsSlice_first_page.
Qed.

Lemma create_prepends_record_witness :
  App.videos
    (fst (AddEditModal.submit None Samples.bird (Some Samples.bird)
            Samples.loaded))
  = Samples.bird :: App.videos Samples.loaded
  /\ App.getFilteredVideos
       (fst (AddEditModal.submit None Samples.bird (Some Samples.bird)
               Samples.loaded))
     = Samples.bird :: App.getFilteredVideos Samples.loaded
  /\ hd_error
       (App.tableRows
          (fst (AddEditModal.submit None Samples.bird (Some Samples.bird)
                  Samples.loaded)))
     = Some Samples.bird.
Proof.
  destruct (create_prepends_record Samples.loaded Samples.bird Samples.bird)
    as (_ & H1 & _ & H2).
  split; [exact H1|].
  destruct H2 as [H2 H3]; [left; repeat split|].
  split; [exact H2 | apply H3; reflexivity].
Defined.

(** ** The pager *)

Lemma cursorTruthy_orNull (c : option string) :
  App.cursorTruthy (App.orNull c) = App.cursorTruthy c.
Proof. unfold App.orNull. destruct (App.cursorTruthy c) eqn:E; trivial. Qed.

Section FetchLoop.

(** The loop runs in the closure of one render: the backend, the state the
    request parameters are read from and the number of records required are
    fixed. *)
Variable api : App.Backend.
Variable st : App.State.
Variable required : Z.

Lemma fetchLoop_unfold
    (fuel n : nat) (buffer : list App.Video) (cursor : option string) :
  App.fetchLoop api st required fuel n buffer cursor
  = if (Z.of_nat (length buffer) <? required) && App.cursorTruthy cursor then
      match fuel with
      | O => None
      | S fuel' =>
          match api n (App.listParams st cursor) with
          | None => Some (App.Threw, [App.listParams st cursor])
          | Some res =>
              match App.fetchLoop api st required fuel' (S n)
                      (buffer ++ default [] (App.data res))
                      (App.orNull (App.next_cursor res)) with
              | Some (r, log) => Some (r, App.listParams st cursor :: log)
              | None => None
              end
          end
      end
    else Some (App.Finished buffer cursor, []).
Proof. destruct fuel; reflexivity. Qed.

(** More fuel does not change the outcome of a loop that ended. *)
Lemma fetchLoop_mono (fuel : nat) :
  forall fuel' n buffer cursor x,
    App.fetchLoop api st required fuel n buffer cursor = Some x ->
    (fuel <= fuel')%nat ->
    App.fetchLoop api st required fuel' n buffer cursor = Some x.
Proof.
  induction fuel as [|fuel IH]; intros fuel' n buffer cursor x H Hle;
    rewrite fetchLoop_unfold in H; rewrite fetchLoop_unfold;
    destruct ((Z.of_nat (length buffer) <? required)
              && App.cursorTruthy cursor); try exact H; try discriminate.
  destruct fuel' as [|fuel']; [lia|].
  destruct (api n (App.listParams st cursor)) as [res|]; [|exact H].
  destruct (App.fetchLoop api st required fuel (S n)
              (buffer ++ default [] (App.data res))
              (App.orNull (App.next_cursor res))) as [y|] eqn:E;
    [|discriminate].
  rewrite (IH fuel' _ _ _ y E) by lia. exact H.
Qed.

(** Against a backend that makes progress the loop ends within as many
    requests as records are missing; it sends the cursors in a chain, and ends
    with the page covered, the cursor exhausted, or a failed request. *)
Lemma fetchLoop_total :
  App.progresses api ->
  forall fuel n buffer cursor,
    (Z.to_nat (required - Z.of_nat (length buffer)) <= fuel)%nat ->
    exists r log,
      App.fetchLoop api st required fuel n buffer cursor = Some (r, log)
      /\ App.cursorChain api n cursor log
      /\ (length log <= Z.to_nat (required - Z.of_nat (length buffer)))%nat
      /\ match r with
         | App.Finished buffer' cursor' =>
             exists fetched,
               buffer' = buffer ++ fetched
               /\ (required <= Z.of_nat (length buffer')
                   \/ App.cursorTruthy cursor' = false)
         | App.Threw =>
             exists p, last log = Some p
                       /\ api (n + Nat.pred (length log))%nat p = None
         end.
Proof.
  intros Hprog.
  induction fuel as [|fuel IH]; intros n buffer cursor Hfuel;
    rewrite fetchLoop_unfold;
    destruct (Z.of_nat (length buffer) <? required) eqn:Hlt;
    destruct (App.cursorTruthy cursor) eqn:Hc; simpl;
    try (eexists _, []; split; [reflexivity|]; split; [exact I|];
         split; [simpl; lia|]; exists []; rewrite app_nil_r;
         split; [reflexivity|];
         first [ right; assumption
               | left; apply Z.ltb_ge in Hlt; exact Hlt ]).
  - apply Z.ltb_lt in Hlt. lia.
  - apply Z.ltb_lt in Hlt.
    destruct (api n (App.listParams st cursor)) as [res|] eqn:Hapi.
    + destruct (App.cursorTruthy (App.next_cursor res)) eqn:Hnext.
      * pose proof (Hprog _ _ _ Hapi Hnext) as Hdata.
        assert (Hgrow : (1 <= length (default [] (App.data res)))%nat).
        { destruct (default [] (App.data res)); [congruence | simpl; lia]. }
        destruct (IH (S n) (buffer ++ default [] (App.data res))
                    (App.orNull (App.next_cursor res)))
          as (r & log & Hrun & Hchain & Hlen & Hr).
        { rewrite length_app. lia. }
        rewrite Hrun. exists r, (App.listParams st cursor :: log).
        split; [reflexivity|]. split.
        { simpl. split; [reflexivity|]. rewrite Hapi. exact Hchain. }
        split.
        { rewrite length_app in Hlen. simpl. lia. }
        destruct r as [buffer' cursor'|].
        -- destruct Hr as (fetched & -> & Hend).
           exists (default [] (App.data res) ++ fetched).
           rewrite app_assoc. split; [reflexivity | exact Hend].
        -- destruct Hr as (p & Hlast & Hfail).
           destruct log as [|q log]; [discriminate|].
           exists p. split; [exact Hlast|].
           simpl in Hfail |- *. replace (n + S (length log))%nat
             with (S (n + length log))%nat by lia. exact Hfail.
      * assert (Hstop : App.fetchLoop api st required fuel (S n)
                          (buffer ++ default [] (App.data res))
                          (App.orNull (App.next_cursor res))
                        = Some (App.Finished
                                  (buffer ++ default [] (App.data res))
                                  (App.orNull (App.next_cursor res)), [])).
        { rewrite fetchLoop_unfold, cursorTruthy_orNull, Hnext.
          rewrite andb_false_r. reflexivity. }
        rewrite Hstop.
        exists (App.Finished (buffer ++ default [] (App.data res))
                  (App.orNull (App.next_cursor res))),
               [App.listParams st cursor].
        split; [reflexivity|]. split.
        { simpl. split; [reflexivity|]. rewrite Hapi. exact I. }
        split; [simpl; lia|].
        exists (default [] (App.data res)). split; [reflexivity|].
        right. rewrite cursorTruthy_orNull. exact Hnext.
    + exists App.Threw, [App.listParams st cursor].
      split; [reflexivity|]. split.
      { simpl. split; [reflexivity|]. rewrite Hapi. reflexivity. }
      split; [simpl; lia|].
      exists (App.listParams st cursor). split; [reflexivity|].
      simpl. rewrite Nat.add_0_r. exact Hapi.
Qed.

(** What a loop that ended has done: its requests are the walk from the
    buffer and the cursor it started with, and it ended on the buffer and the
    cursor that the responses leave, with the page covered or the cursor
    exhausted, unless a request failed. *)
Lemma fetchLoop_trace (fuel : nat) :
  forall n buffer cursor r log,
    App.fetchLoop api st required fuel n buffer cursor = Some (r, log) ->
    App.loopTrace api st required n buffer cursor log
    /\ match r with
       | App.Finished buffer' cursor' =>
           App.replay api n buffer cursor log = Some (buffer', cursor')
           /\ (required <= Z.of_nat (length buffer')
               \/ App.cursorTruthy cursor' = false)
       | App.Threw => App.replay api n buffer cursor log = None
       end.
Proof.
  induction fuel as [|fuel IH]; intros n buffer cursor r log H;
    rewrite fetchLoop_unfold in H;
    destruct (Z.of_nat (length buffer) <? required) eqn:Hlt;
    destruct (App.cursorTruthy cursor) eqn:Hc; simpl in H;
    try discriminate;
    try (injection H as <- <-; split; [exact I|]; split; [reflexivity|];
         first [ right; assumption
               | left; apply Z.ltb_ge in Hlt; exact Hlt ]).
  apply Z.ltb_lt in Hlt.
  destruct (api n (App.listParams st cursor)) as [res|] eqn:Hapi.
  - destruct (App.fetchLoop api st required fuel (S n)
                (buffer ++ default [] (App.data res))
                (App.orNull (App.next_cursor res)))
      as [[r' log']|] eqn:E; [|discriminate].
    injection H as <- <-.
    destruct (IH _ _ _ _ _ E) as [Htrace Hend].
    split.
    + simpl. rewrite Hapi. auto.
    + destruct r' as [buffer' cursor'|]; simpl; rewrite Hapi; exact Hend.
  - injection H as <- <-. split.
    + simpl. rewrite Hapi. auto.
    + simpl. rewrite Hapi. reflexivity.
Qed.

End FetchLoop.

Lemma jsSlice_nil {A} (start stop : Z) : App.jsSlice start stop (@nil A) = [].
Proof. unfold App.jsSlice. rewrite drop_nil, take_nil. reflexivity. Qed.

(** When the list is not loading, the rows of the table are the slice of
    the filtered view that belongs to the current page. *)
Lemma tableRows_slice (st : App.State) :
  App.loading st = false ->
  App.tableRows st
  = App.jsSlice ((App.page st - 1) * App.PAGE_LIMIT)
      (App.page st * App.PAGE_LIMIT) (App.getFilteredVideos st).
Proof.
  intros Hl. unfold App.tableRows. rewrite Hl.
  destruct (App.getFilteredVideos st) as [|v l]; cbn [length Nat.ltb Nat.leb].
  - symmetry. apply jsSlice_nil.
  - reflexivity.
Qed.

(** Filtering an extension of the filtered view again keeps the view and
    filters what was appended. *)
Lemma refilter_buffer (st st' : App.State) (fetched : list App.Video) :
  App.keeps st' = App.keeps st ->
  App.videos st' = App.getFilteredVideos st ++ fetched ->
  App.getFilteredVideos st'
  = App.getFilteredVideos st ++ List.filter (App.keeps st) fetched.
Proof.
  intros Hk Hv. rewrite (getFilteredVideos_keeps st'), Hk, Hv.
  rewrite List.filter_app. f_equal.
  rewrite getFilteredVideos_keeps, filter_filter_andb.
  apply filter_ext_bool. intros v. apply andb_diag.
Qed.

Example handlePageChange_sample :
  (fun r => (App.videos (fst r), App.nextCursor (fst r), App.page (fst r),
             App.loading (fst r), App.tableRows (fst r), snd r))
    <$> App.handlePageChange Samples.finiteBackend 5 2 Samples.finiteState
  = Some ([Samples.bird; Samples.bird; Samples.bird; Samples.bird],
          None, 2, false, [],
          [App.HttpGet (App.listParams Samples.finiteState (Some "more"));
           App.HttpGet (App.listParams Samples.finiteState (Some "more"));
           App.HttpGet (App.listParams Samples.finiteState (Some "more"));
           App.ScrollTo 300]).
Proof. reflexivity. Qed.

Lemma fetchLoop_stuck (fuel n : nat) :
  App.fetchLoop Samples.stuckBackend Samples.stuckState (2 * App.PAGE_LIMIT)
    fuel n [] (Some "c") = None.
Proof.
  revert n. induction fuel as [|fuel IH]; intros n; [reflexivity|].
  rewrite fetchLoop_unfold.
  change ((Z.of_nat (length (@nil App.Video)) <? 2 * App.PAGE_LIMIT)
          && App.cursorTruthy (Some "c")) with true.
  cbv iota. change (Samples.stuckBackend n
                      (App.listParams Samples.stuckState (Some "c")))
    with (Some {| App.data := Some []; App.filter_counts := None;
                  App.estimated_count := Some 2000;
                  App.next_cursor := Some "c" |}).
  cbv iota. cbn [App.data App.next_cursor default app].
  change (App.orNull (Some "c")) with (Some "c").
  rewrite IH. reflexivity.
Qed.

(** C1 fails as stated: the list was loaded from a backend that reports two
    pages, gives no record and always hands out a further cursor.  The change
    to page 2 passes the guard, the held records do not cover the page, and
    the fetch loop does not end, whatever number of iterations is allowed. *)
Lemma handlePageChange_loop_may_not_end :
  App.pageGuard Samples.stuckState 2 = false
  /\ Z.of_nat (length (App.getFilteredVideos Samples.stuckState))
     < 2 * App.PAGE_LIMIT
  /\ ~ (exists fuel,
          is_Some (App.handlePageChange Samples.stuckBackend fuel 2
                     Samples.stuckState)).
Proof.
  split; [reflexivity|]. split; [vm_compute; reflexivity|].
  intros (fuel & r & H). unfold App.handlePageChange in H.
  change (App.pageGuard Samples.stuckState 2) with false in H.
  cbv iota zeta in H.
  change (App.getFilteredVideos Samples.stuckState) with (@nil App.Video) in H.
  change (App.nextCursor Samples.stuckState) with (Some "c") in H.
  rewrite fetchLoop_stuck in H. discriminate.
Qed.

(** C1, amended: let the backend make progress (a response that hands out a
    further cursor carries at least one record).  Then a page change that
    passes the guard ends after at most as many fetches as records are missing
    for the requested page, with the page set and loading off.  A fetch is
    sent only while the buffer is short of the requested page and the cursor
    is non-empty; it carries the limit, the filters, the search and, as
    [last_id], the cursor seen last, the first one the stored cursor.  Either
    no fetch failed: then the videos list becomes the held filtered records
    followed by the records of the responses, in order, the stored cursor
    becomes the one of the last response (it stays when nothing was fetched),
    nothing else of the state changes, and the records cover the requested
    page or the cursor is exhausted; or the last fetch failed, and only the
    page is changed.  The table then shows the slice of the filtered view for
    the requested page, the view being the held records followed by the
    fetched ones that pass the active filter. *)
Theorem handlePageChange_fetches_until_covered
    (api : App.Backend) (st : App.State) (targetPage : Z) :
  App.progresses api ->
  App.pageGuard st targetPage = false ->
  exists st' log rest,
    (forall fuel,
        (Z.to_nat (targetPage * App.PAGE_LIMIT
                   - Z.of_nat (length (App.getFilteredVideos st)))
         <= fuel)%nat ->
        App.handlePageChange api fuel targetPage st
        = Some (st', (App.HttpGet <$> log) ++ rest))
    /\ App.cursorChain api 0 (App.nextCursor st) log
    /\ App.loopTrace api st (targetPage * App.PAGE_LIMIT) 0
         (App.getFilteredVideos st) (App.nextCursor st) log
    /\ (length log
        <= Z.to_nat (targetPage * App.PAGE_LIMIT
                     - Z.of_nat (length (App.getFilteredVideos st))))%nat
    /\ App.page st' = targetPage
    /\ App.loading st' = false
    /\ App.tableRows st'
       = App.jsSlice ((targetPage - 1) * App.PAGE_LIMIT)
           (targetPage * App.PAGE_LIMIT) (App.getFilteredVideos st')
    /\ ((exists fetched,
            rest = [App.ScrollTo 300]
            /\ App.replay api 0 (App.getFilteredVideos st)
                 (App.nextCursor st) log
               = Some (App.videos st', App.nextCursor st')
            /\ st' = App.setLoading false
                       (App.setNextCursor (App.nextCursor st')
                          (App.setVideos (App.videos st')
                             (App.setPage targetPage st)))
            /\ App.videos st' = App.getFilteredVideos st ++ fetched
            /\ App.getFilteredVideos st'
               = App.getFilteredVideos st
                 ++ List.filter (App.keeps st) fetched
            /\ (targetPage * App.PAGE_LIMIT
                <= Z.of_nat (length (App.videos st'))
                \/ App.cursorTruthy (App.nextCursor st') = false))
        \/ (rest = [App.ConsoleError "Error loading page data:";
                    App.ScrollTo 300]
            /\ App.replay api 0 (App.getFilteredVideos st)
                 (App.nextCursor st) log
               = None
            /\ st' = App.setLoading false (App.setPage targetPage st)
            /\ App.videos st' = App.videos st
            /\ App.nextCursor st' = App.nextCursor st
            /\ exists p, last log = Some p
                         /\ api (Nat.pred (length log)) p = None)).
Proof.
  intros Hprog Hguard.
  set (required := targetPage * App.PAGE_LIMIT).
  set (bound := Z.to_nat
                  (required - Z.of_nat (length (App.getFilteredVideos st)))).
  destruct (fetchLoop_total api st required Hprog bound O
              (App.getFilteredVideos st) (App.nextCursor st) (le_n _))
    as (r & log & Hrun & Hchain & Hlen & Hr).
  destruct (fetchLoop_trace api st required bound _ _ _ _ _ Hrun)
    as [Htrace Hreplay].
  assert (Hrun' : forall fuel, (bound <= fuel)%nat ->
            App.fetchLoop api st required fuel O (App.getFilteredVideos st)
              (App.nextCursor st) = Some (r, log)).
  { intros fuel Hle. exact (fetchLoop_mono _ _ _ _ _ _ _ _ _ Hrun Hle). }
  destruct r as [buffer cursor|].
  - destruct Hr as (fetched & Hbuf & Hend).
    destruct Hreplay as [Hreplay _].
    exists (App.setLoading false
              (App.setNextCursor cursor
              (App.setVideos buffer
              (App.setLoading true (App.setPage targetPage st))))),
           log, [App.ScrollTo 300].
    split.
    { intros fuel Hle. unfold App.handlePageChange.
      rewrite Hguard. cbv zeta. fold required.
      rewrite (Hrun' fuel Hle). reflexivity. }
    split; [exact Hchain|]. split; [exact Htrace|]. split; [exact Hlen|].
    split; [reflexivity|]. split; [reflexivity|].
    split; [apply tableRows_slice; reflexivity|].
    left. exists fetched. split; [reflexivity|].
    split; [exact Hreplay|]. split; [reflexivity|].
    split; [exact Hbuf|]. split.
    { apply refilter_buffer; [reflexivity | exact Hbuf]. }
    exact Hend.
  - destruct Hr as (p & Hlast & Hfail).
    exists (App.setLoading false
              (App.setLoading true (App.setPage targetPage st))),
           log, [App.ConsoleError "Error loading page data:";
                 App.ScrollTo 300].
    split.
    { intros fuel Hle. unfold App.handlePageChange.
      rewrite Hguard. cbv zeta. fold required.
      rewrite (Hrun' fuel Hle). reflexivity. }
    split; [exact Hchain|]. split; [exact Htrace|]. split; [exact Hlen|].
    split; [reflexivity|]. split; [reflexivity|].
    split; [apply tableRows_slice; reflexivity|].
    right. split; [reflexivity|]. split; [exact Hreplay|].
    split; [reflexivity|]. split; [reflexivity|].
    split; [reflexivity|]. exists p. split; [exact Hlast | exact Hfail].
Qed.

Lemma handlePageChange_fetches_until_covered_witness :
  exists st' log rest,
    (forall fuel,
        (Z.to_nat (2 * App.PAGE_LIMIT
                   - Z.of_nat
                       (length (App.getFilteredVideos Samples.finiteState)))
         <= fuel)%nat ->
        App.handlePageChange Samples.finiteBackend fuel 2 Samples.finiteState
        = Some (st', (App.HttpGet <$> log) ++ rest))
    /\ App.cursorChain Samples.finiteBackend 0
         (App.nextCursor Samples.finiteState) log
    /\ App.loopTrace Samples.finiteBackend Samples.finiteState
         (2 * App.PAGE_LIMIT) 0 (App.getFilteredVideos Samples.finiteState)
         (App.nextCursor Samples.finiteState) log
    /\ (length log
        <= Z.to_nat
             (2 * App.PAGE_LIMIT
              - Z.of_nat
                  (length (App.getFilteredVideos Samples.finiteState))))%nat
    /\ App.page st' = 2
    /\ App.loading st' = false
    /\ App.tableRows st'
       = App.jsSlice ((2 - 1) * App.PAGE_LIMIT) (2 * App.PAGE_LIMIT)
           (App.getFilteredVideos st')
    /\ ((exists fetched,
            rest = [App.ScrollTo 300]
            /\ App.replay Samples.finiteBackend 0
                 (App.getFilteredVideos Samples.finiteState)
                 (App.nextCursor Samples.finiteState) log
               = Some (App.videos st', App.nextCursor st')
            /\ st' = App.setLoading false
                       (App.setNextCursor (App.nextCursor st')
                          (App.setVideos (App.videos st')
                             (App.setPage 2 Samples.finiteState)))
            /\ App.videos st'
               = App.getFilteredVideos Samples.finiteState ++ fetched
            /\ App.getFilteredVideos st'
               = App.getFilteredVideos Samples.finiteState
                 ++ List.filter (App.keeps Samples.finiteState) fetched
            /\ (2 * App.PAGE_LIMIT <= Z.of_nat (length (App.videos st'))
                \/ App.cursorTruthy (App.nextCursor st') = false))
        \/ (rest = [App.ConsoleError "Error loading page data:";
                    App.ScrollTo 300]
            /\ App.replay Samples.finiteBackend 0
                 (App.getFilteredVideos Samples.finiteState)
                 (App.nextCursor Samples.finiteState) log
               = None
            /\ st' = App.setLoading false (App.setPage 2 Samples.finiteState)
            /\ App.videos st' = App.videos Samples.finiteState
            /\ App.nextCursor st' = App.nextCursor Samples.finiteState
            /\ exists p,
                 last log = Some p
                 /\ Samples.finiteBackend (Nat.pred (length log)) p = None)).
Proof.
  apply handlePageChange_fetches_until_covered.
  - intros n p res H _. injection H as <-. simpl. discriminate.
  - reflexivity.
Defined.

(** ** Further properties of the transcript editor's counters *)

Lemma rev_app_length (s t : string) :
  String.length (String.rev_app s t)
  = (String.length s + String.length t)%nat.
Proof.
  revert t. induction s as [|c s IH]; intros t; simpl; [reflexivity|].
  rewrite IH. simpl. lia.
Qed.

Lemma rev_length (s : string) :
  String.length (String.rev s) = String.length s.
Proof. unfold String.rev. rewrite rev_app_length. simpl. lia. Qed.

Lemma truthy_length (s : string) :
  JS.truthy s = true <-> (0 < String.length s)%nat.
Proof. destruct s; simpl; split; intros; try lia; congruence. Qed.

Lemma truthy_rev (s : string) : JS.truthy (String.rev s) = JS.truthy s.
Proof.
  destruct (JS.truthy s) eqn:E.
  - apply truthy_length. rewrite rev_length. apply truthy_length, E.
  - apply truthy_false_iff in E. subst. reflexivity.
Qed.

Lemma tagTail_none_tagFree (s : string) :
  JS.tagTail s = None -> JS.tagFree s = true.
Proof.
  induction s as [|c s IH]; simpl; [reflexivity|].
  destruct (Ascii.eqb c ">"); [discriminate|].
  destruct (JS.tagTail s); [discriminate|]. intros _.
  rewrite IH by reflexivity. destruct (Ascii.eqb c "<"); reflexivity.
Qed.

Lemma stripTags_go_tagFree_id (s : string) :
  JS.tagFree s = true -> JS.stripTags_go 0 s = s.
Proof.
  induction s as [|c s IH]; simpl; [reflexivity|].
  intros H. apply andb_true_iff in H as [H1 H2].
  destruct (Ascii.eqb c "<").
  - destruct (JS.tagTail s); [discriminate|]. rewrite IH by exact H2.
    reflexivity.
  - rewrite IH by exact H2. reflexivity.
Qed.

Lemma stripTags_go_tagFree (s : string) :
  forall skip, JS.tagFree (JS.stripTags_go skip s) = true.
Proof.
  induction s as [|c s IH]; intros skip; simpl; [reflexivity|].
  destruct skip as [|k]; [|apply IH].
  destruct (Ascii.eqb c "<") eqn:Ec.
  - destruct (JS.tagTail s) as [n|] eqn:Et; [apply IH|].
    rewrite (stripTags_go_tagFree_id s) by (apply tagTail_none_tagFree, Et).
    simpl. rewrite Ec, Et. simpl. apply tagTail_none_tagFree, Et.
  - simpl. rewrite Ec. simpl. apply IH.
Qed.

Lemma stripTags_go_length (s : string) :
  forall skip,
    (String.length (JS.stripTags_go skip s) <= String.length s)%nat.
Proof.
  induction s as [|c s IH]; intros skip; simpl; [lia|].
  destruct skip as [|k]; [|specialize (IH k); lia].
  destruct (Ascii.eqb c "<").
  - destruct (JS.tagTail s) as [n|].
    + specialize (IH n). lia.
    + simpl. specialize (IH O). lia.
  - simpl. specialize (IH O). lia.
Qed.

(** The words of a split are made of characters of the text: there are at
    most as many as characters, counting the piece being read. *)
Lemma splitWs_go_words_le (s : string) :
  forall cur inSep,
    (length (List.filter JS.truthy (JS.splitWs_go cur inSep s))
     <= String.length cur + String.length s)%nat.
Proof.
  induction s as [|c s IH]; intros cur inSep; simpl.
  - rewrite truthy_rev. destruct cur; simpl; lia.
  - destruct (Ascii.is_space c).
    + destruct inSep.
      * specialize (IH cur true). lia.
      * simpl. rewrite truthy_rev. specialize (IH EmptyString true).
        destruct cur; simpl in *; lia.
    + specialize (IH (String c cur) false). simpl in IH. lia.
Qed.

Lemma splitWs_go_no_word (s : string) :
  forall cur inSep,
    List.filter JS.truthy (JS.splitWs_go cur inSep s) = []
    <-> cur = EmptyString /\ JS.blank s = true.
Proof.
  induction s as [|c s IH]; intros cur inSep; simpl.
  - rewrite truthy_rev. destruct cur; simpl; split; intros H;
      try tauto; try discriminate. destruct H; discriminate.
  - destruct (Ascii.is_space c); simpl.
    + destruct inSep.
      * apply IH.
      * simpl. rewrite truthy_rev. destruct cur as [|d cur]; simpl.
        -- rewrite IH. tauto.
        -- split; intros H; [discriminate | destruct H; discriminate].
    + rewrite IH. split; intros [H1 H2]; discriminate.
Qed.

(** X1: the text the counters read has no tag left in it: after the replace
    no [<] is followed by a [>], and stripping the tags a second time changes
    nothing. *)
Theorem stripTags_idempotent (content : string) :
  JS.tagFree (JS.stripTags content) = true
  /\ JS.stripTags (JS.stripTags content) = JS.stripTags content.
Proof.
  assert (H : JS.tagFree (JS.stripTags content) = true)
    by apply stripTags_go_tagFree.
  split; [exact H|]. apply stripTags_go_tagFree_id, H.
Qed.

(** X2: the character count never exceeds the length of the content, and
    the word count never exceeds the character count. *)
Theorem wordCount_le_charCount_le_length (content : string) :
  (VisualEditor.wordCount content <= VisualEditor.charCount content)%nat
  /\ (VisualEditor.charCount content <= String.length content)%nat.
Proof.
  split.
  - unfold VisualEditor.wordCount, VisualEditor.charCount, JS.splitWs.
    pose proof (splitWs_go_words_le (JS.stripTags content) EmptyString false)
      as H. simpl in H. exact H.
  - apply stripTags_go_length.
Qed.

(** X3: the word count is 0 exactly when the content, with its tags
    stripped, is empty or all white space. *)
Theorem wordCount_zero_iff_blank (content : string) :
  VisualEditor.wordCount content = 0%nat
  <-> JS.blank (JS.stripTags content) = true.
Proof.
  unfold VisualEditor.wordCount, JS.splitWs.
  rewrite length_zero_iff_nil, splitWs_go_no_word. tauto.
Qed.

(** X4: on content without a complete tag (in particular without any [<])
    nothing is stripped: the character count is the length of the content. *)
Theorem charCount_tagFree (content : string) :
  JS.tagFree content = true ->
  JS.stripTags content = content
  /\ VisualEditor.charCount content = String.length content.
Proof.
  intros H. unfold VisualEditor.charCount.
  rewrite (stripTags_go_tagFree_id content H : JS.stripTags content = content).
  split; reflexivity.
Qed.

Lemma charCount_tagFree_witness :
  JS.stripTags "a < b &amp; c" = "a < b &amp; c"
  /\ VisualEditor.charCount "a < b &amp; c" = String.length "a < b &amp; c".
Proof. apply charCount_tagFree. reflexivity. Defined.

Example counts_empty_editor :
  VisualEditor.wordCount "<p><br></p>" = 0%nat
  /\ VisualEditor.charCount "<p><br></p>" = 0%nat
  /\ VisualEditor.wordCount "<p>one</p><p>two</p>" = 1%nat.
Proof. repeat split. Qed.

(** ** The video modal *)

Lemma append_cons (c : ascii) (s t : string) :
  String c s +:+ t = String c (s +:+ t).
Proof. reflexivity. Qed.

Lemma append_empty_r (s : string) : s +:+ "" = s.
Proof.
  induction s as [|c s IH]; [reflexivity|]. rewrite append_cons, IH.
  reflexivity.
Qed.

Lemma append_assoc (a b c : string) : (a +:+ b) +:+ c = a +:+ (b +:+ c).
Proof.
  induction a as [|x a IH]; [reflexivity|]. rewrite !append_cons, IH.
  reflexivity.
Qed.

Lemma rev_app_append (a b s : string) :
  String.rev_app a b +:+ s = String.rev_app a (b +:+ s).
Proof.
  revert b. induction a as [|x a IH]; intros b; simpl; [reflexivity|].
  rewrite IH, append_cons. reflexivity.
Qed.

Lemma rev_cons_append (c : ascii) (cur s : string) :
  String.rev (String c cur) +:+ s = String.rev cur +:+ String c s.
Proof. unfold String.rev. simpl. rewrite !rev_app_append. reflexivity. Qed.

Lemma lacks_rev_app (sep : ascii) (a b : string) :
  JS.lacks sep (String.rev_app a b) = JS.lacks sep a && JS.lacks sep b.
Proof.
  revert b. induction a as [|x a IH]; intros b; simpl; [reflexivity|].
  rewrite IH. simpl. destruct (Ascii.eqb x sep); simpl;
    [rewrite andb_false_r|]; reflexivity.
Qed.

Lemma lacks_rev (sep : ascii) (s : string) :
  JS.lacks sep (String.rev s) = JS.lacks sep s.
Proof. unfold String.rev. rewrite lacks_rev_app. simpl. apply andb_true_r. Qed.

Lemma splitChar_go_nonempty (sep : ascii) (s cur : string) :
  JS.splitChar_go sep cur s <> [].
Proof.
  revert cur. induction s as [|c s IH]; intros cur; simpl; [discriminate|].
  destruct (Ascii.eqb c sep); [discriminate | apply IH].
Qed.

(** The last piece of a split has no separator in it, and is the whole text
    or what follows its last separator. *)
Lemma splitChar_go_last (sep : ascii) (s : string) :
  forall cur,
    JS.lacks sep cur = true ->
    exists seg,
      last (JS.splitChar_go sep cur s) = Some seg
      /\ JS.lacks sep seg = true
      /\ (seg = String.rev cur +:+ s
          \/ exists pre, String.rev cur +:+ s = pre +:+ String sep seg).
Proof.
  induction s as [|c s IH]; intros cur Hcur; simpl.
  - exists (String.rev cur). rewrite lacks_rev, append_empty_r. auto.
  - destruct (Ascii.eqb c sep) eqn:Ec.
    + apply Ascii.eqb_eq in Ec. subst c.
      destruct (IH EmptyString eq_refl) as (seg & Hlast & Hseg & Hshape).
      exists seg. split.
      { rewrite last_cons, Hlast. reflexivity. }
      split; [exact Hseg|]. right.
      destruct Hshape as [->|(pre & Hpre)].
      * exists (String.rev cur). reflexivity.
      * exists (String.rev cur +:+ String sep pre).
        change (String.rev EmptyString +:+ s) with s in Hpre.
        rewrite Hpre, append_assoc. reflexivity.
    + destruct (IH (String c cur)) as (seg & Hlast & Hseg & Hshape).
      { simpl. rewrite Ec. exact Hcur. }
      exists seg. rewrite rev_cons_append in Hshape. auto.
Qed.

(** X5: for a source URL that mentions [youtu.be] the video id is the last
    piece of the URL split at [/]: it contains no [/], and it is the whole
    URL or what follows the last [/] of it (query string included), whatever
    the URL parser would say. *)
Theorem getVideoId_youtu_be
    (searchParamV : string -> option string) (url : string) :
  url <> "" ->
  JS.includes url "youtu.be" = true ->
  exists id,
    VideoModal.getVideoId searchParamV (Some url) = Some id
    /\ JS.lacks "/" id = true
    /\ (id = url \/ exists pre, url = pre +:+ String "/" id).
Proof.
  intros Hne Hinc. unfold VideoModal.getVideoId.
  apply truthy_true_iff in Hne. rewrite Hne, Hinc. simpl.
  destruct (splitChar_go_last "/" url EmptyString eq_refl)
    as (id & Hlast & Hid & Hshape).
  exists id. auto.
Qed.

Lemma getVideoId_youtu_be_witness :
  exists id,
    VideoModal.getVideoId (fun _ => None) (Some "https://youtu.be/abc?t=9")
    = Some id
    /\ JS.lacks "/" id = true
    /\ (id = "https://youtu.be/abc?t=9"
        \/ exists pre, "https://youtu.be/abc?t=9" = pre +:+ String "/" id).
Proof. apply getVideoId_youtu_be; [discriminate | reflexivity]. Defined.

Example getVideoId_samples :
  VideoModal.getVideoId (fun _ => None) (Some "https://youtu.be/abc?t=9")
  = Some "abc?t=9"
  /\ VideoModal.getVideoId (fun _ => None) (Some "https://youtu.be/abc/")
     = Some ""
  /\ VideoModal.getVideoId (fun _ => Some "x") (Some "") = None
  /\ VideoModal.getVideoId (fun _ => Some "x") None = None.
Proof. repeat split. Qed.

(** ** Derived values of the dashboard *)

Lemma eqb_empty_false_iff (s : string) :
  negb (String.eqb s "") = false <-> s = "".
Proof.
  rewrite negb_false_iff. apply String.eqb_eq.
Qed.

Lemma hasFilters_false_iff (st : App.State) :
  App.hasFilters st = false <-> App.unfiltered st.
Proof.
  unfold App.hasFilters, App.unfiltered. simpl.
  rewrite !orb_false_iff, !eqb_empty_false_iff. tauto.
Qed.

Lemma getFilteredVideos_unfiltered (st : App.State) :
  App.unfiltered st -> App.getFilteredVideos st = App.videos st.
Proof.
  intros H. rewrite getFilteredVideos_keeps.
  rewrite (filter_ext_bool (App.keeps st) (fun _ => true)).
  - apply filter_true.
  - intros v. apply keeps_unfiltered, H.
Qed.

(** X6: when [hasFilters] is false, nothing is filtered locally: the
    filtered view is the loaded list and the matched document count is the
    estimated count. *)
Theorem hasFilters_false_unfiltered (st : App.State) :
  App.hasFilters st = false ->
  App.getFilteredVideos st = App.videos st
  /\ App.getMatchedDocumentCount st = App.estimatedCount st.
Proof.
  intros H. apply hasFilters_false_iff in H.
  split; [apply getFilteredVideos_unfiltered, H|].
  destruct H as (Hq & Ht & Hd & Hx).
  unfold App.getMatchedDocumentCount. rewrite Hq, Ht, Hd, Hx. reflexivity.
Qed.

Lemma hasFilters_false_unfiltered_witness :
  App.getFilteredVideos Samples.loaded = App.videos Samples.loaded
  /\ App.getMatchedDocumentCount Samples.loaded
     = App.estimatedCount Samples.loaded.
Proof. apply hasFilters_false_unfiltered. reflexivity. Defined.

(** ** The rows of the table *)

Lemma jsSlice_nonneg {A} (start stop : Z) (l : list A) :
  0 <= start <= stop ->
  App.jsSlice start stop l
  = take (Z.to_nat (stop - start)) (drop (Z.to_nat start) l).
Proof.
  intros H. unfold App.jsSlice.
  assert (Hs : (start <? 0) = false) by (apply Z.ltb_ge; lia).
  assert (He : (stop <? 0) = false) by (apply Z.ltb_ge; lia).
  rewrite Hs, He.
  destruct (Z.le_gt_cases (Z.of_nat (length l)) start) as [Hge|Hlt].
  - rewrite !drop_ge by lia. rewrite !take_nil. reflexivity.
  - rewrite (Z.min_l start) by lia.
    destruct (Z.le_gt_cases stop (Z.of_nat (length l))) as [Hle|Hgt].
    + rewrite (Z.min_l stop) by lia. reflexivity.
    + rewrite (Z.min_r stop) by lia.
      rewrite !take_ge; [reflexivity| |]; rewrite length_drop; lia.
Qed.

(** X7: when the list is not loading and the page number is at least 1,
    the table shows the records of the filtered view from index
    [(page - 1) * PAGE_LIMIT] on, at most [PAGE_LIMIT] of them, and the serial
    number of a row is the position of its record in the filtered view,
    counted from 1. *)
Theorem tableRows_page_segment (st : App.State) :
  App.loading st = false ->
  1 <= App.page st ->
  App.tableRows st
  = take (Z.to_nat App.PAGE_LIMIT)
      (drop (Z.to_nat ((App.page st - 1) * App.PAGE_LIMIT))
         (App.getFilteredVideos st))
  /\ (length (App.tableRows st) <= Z.to_nat App.PAGE_LIMIT)%nat
  /\ (forall idx v,
         App.tableRows st !! idx = Some v ->
         App.getFilteredVideos st !! Z.to_nat (App.serialNumber st idx - 1)
         = Some v).
Proof.
  intros Hl Hp.
  assert (E : App.tableRows st
              = take (Z.to_nat App.PAGE_LIMIT)
                  (drop (Z.to_nat ((App.page st - 1) * App.PAGE_LIMIT))
                     (App.getFilteredVideos st))).
  { rewrite tableRows_slice by exact Hl.
    rewrite jsSlice_nonneg by (unfold App.PAGE_LIMIT; lia).
    f_equal. f_equal. lia. }
  split; [exact E|]. split.
  - rewrite E, length_take. lia.
  - intros idx v H. rewrite E in H.
    apply lookup_take_Some in H as [H _]. rewrite lookup_drop in H.
    rewrite <- H. f_equal. unfold App.serialNumber, App.PAGE_LIMIT. lia.
Qed.

Lemma tableRows_page_segment_witness :
  App.tableRows Samples.loaded
  = take (Z.to_nat App.PAGE_LIMIT)
      (drop (Z.to_nat ((App.page Samples.loaded - 1) * App.PAGE_LIMIT))
         (App.getFilteredVideos Samples.loaded))
  /\ (length (App.tableRows Samples.loaded) <= Z.to_nat App.PAGE_LIMIT)%nat
  /\ (forall idx v,
         App.tableRows Samples.loaded !! idx = Some v ->
         App.getFilteredVideos Samples.loaded
           !! Z.to_nat (App.serialNumber Samples.loaded idx - 1)
         = Some v).
Proof. apply tableRows_page_segment; [reflexivity | simpl; lia]. Defined.

(** X8: after Reset no filter is active, page 1 is shown, and the matched
    document count is the number of loaded records. *)
Theorem reset_count_is_loaded (st : App.State) :
  App.hasFilters (App.reset st) = false
  /\ App.page (App.reset st) = 1
  /\ App.getMatchedDocumentCount (App.reset st)
     = Some (Z.of_nat (length (App.videos st))).
Proof. repeat split. Qed.

(** ** More on the filtered view *)

Lemma filter_sublist_of {A} (p : A -> bool) (l : list A) :
  List.filter p l `sublist_of` l.
Proof.
  induction l as [|x l IH]; simpl; [constructor|].
  destruct (p x); [apply sublist_skip | apply sublist_cons]; exact IH.
Qed.

(** X9: the filtered view never invents or reorders records: it is a
    sublist of the loaded list, in the same order. *)
Theorem getFilteredVideos_sublist (st : App.State) :
  App.getFilteredVideos st `sublist_of` App.videos st
  /\ (length (App.getFilteredVideos st) <= length (App.videos st))%nat.
Proof.
  assert (H : App.getFilteredVideos st `sublist_of` App.videos st).
  { rewrite getFilteredVideos_keeps. apply filter_sublist_of. }
  split; [exact H | apply sublist_length, H].
Qed.

(** X10: with a search query that is empty after trimming, the three filter
    boxes act together: a record is shown exactly when it is loaded and passes
    each box (a box that is empty after trimming lets every record pass; a
    record passes another box when the named field is present and contains
    the trimmed box text, compared in lower case). *)
Theorem getFilteredVideos_boxes (st : App.State) (v : App.Video) :
  JS.trim (App.searchText st) = "" ->
  In v (App.getFilteredVideos st)
  <-> In v (App.videos st)
      /\ App.passesBox v ("title", App.title (App.filters st)) = true
      /\ App.passesBox v ("description", App.description (App.filters st))
         = true
      /\ App.passesBox v
           ("transcriptText", App.transcriptText (App.filters st)) = true.
Proof.
  intros Hq. rewrite getFilteredVideos_keeps, List.filter_In.
  unfold App.keeps. rewrite Hq.
  cbn [JS.toLowerCase JS.truthy App.entries forallb].
  rewrite !andb_true_iff. tauto.
Qed.

Lemma getFilteredVideos_boxes_witness :
  In Samples.dog
     (App.getFilteredVideos (App.setFilters Samples.boxes Samples.loaded))
  <-> In Samples.dog (App.videos (App.setFilters Samples.boxes Samples.loaded))
      /\ App.passesBox Samples.dog
           ("title",
            App.title
              (App.filters (App.setFilters Samples.boxes Samples.loaded)))
         = true
      /\ App.passesBox Samples.dog
           ("description",
            App.description
              (App.filters (App.setFilters Samples.boxes Samples.loaded)))
         = true
      /\ App.passesBox Samples.dog
           ("transcriptText",
            App.transcriptText
              (App.filters (App.setFilters Samples.boxes Samples.loaded)))
         = true.
Proof. apply getFilteredVideos_boxes. reflexivity. Defined.

(** *** Case and white space in the query *)

Lemma lowerChar_idempotent (c : ascii) :
  JS.lowerChar (JS.lowerChar c) = JS.lowerChar c.
Proof. destruct c as [[] [] [] [] [] [] [] []]; reflexivity. Qed.

Lemma is_space_lowerChar (c : ascii) :
  Ascii.is_space (JS.lowerChar c) = Ascii.is_space c.
Proof. destruct c as [[] [] [] [] [] [] [] []]; reflexivity. Qed.

Lemma toLowerCase_idempotent (s : string) :
  JS.toLowerCase (JS.toLowerCase s) = JS.toLowerCase s.
Proof.
  induction s as [|c s IH]; simpl; [reflexivity|].
  rewrite lowerChar_idempotent, IH. reflexivity.
Qed.

Lemma toLowerCase_rev_app (a b : string) :
  JS.toLowerCase (String.rev_app a b)
  = String.rev_app (JS.toLowerCase a) (JS.toLowerCase b).
Proof.
  revert b. induction a as [|c a IH]; intros b; simpl; [reflexivity|].
  rewrite IH. reflexivity.
Qed.

Lemma toLowerCase_rev (s : string) :
  JS.toLowerCase (String.rev s) = String.rev (JS.toLowerCase s).
Proof. unfold String.rev. apply toLowerCase_rev_app. Qed.

Lemma toLowerCase_trimStart (s : string) :
  JS.toLowerCase (JS.trimStart s) = JS.trimStart (JS.toLowerCase s).
Proof.
  induction s as [|c s IH]; simpl; [reflexivity|].
  rewrite is_space_lowerChar. destruct (Ascii.is_space c); [exact IH|].
  reflexivity.
Qed.

Lemma toLowerCase_trim (s : string) :
  JS.toLowerCase (JS.trim s) = JS.trim (JS.toLowerCase s).
Proof.
  unfold JS.trim, JS.trimEnd.
  rewrite toLowerCase_rev, toLowerCase_trimStart, toLowerCase_rev,
    toLowerCase_trimStart.
  reflexivity.
Qed.

Lemma getFilteredVideos_text (st : App.State) (q q' : string) :
  JS.toLowerCase (JS.trim q) = JS.toLowerCase (JS.trim q') ->
  App.getFilteredVideos (App.setSearchText q st)
  = App.getFilteredVideos (App.setSearchText q' st).
Proof.
  intros E. unfold App.getFilteredVideos. simpl. rewrite E. reflexivity.
Qed.

(** X11: the search is insensitive to the case of the query: two queries
    that differ only in the case of their letters show the same records. *)
Theorem getFilteredVideos_query_case (st : App.State) (q q' : string) :
  JS.toLowerCase q = JS.toLowerCase q' ->
  App.getFilteredVideos (App.setSearchText q st)
  = App.getFilteredVideos (App.setSearchText q' st).
Proof.
  intros E. apply getFilteredVideos_text.
  rewrite !toLowerCase_trim, E. reflexivity.
Qed.

Lemma getFilteredVideos_query_case_witness :
  App.getFilteredVideos (App.setSearchText "CAT Videos" Samples.loaded)
  = App.getFilteredVideos (App.setSearchText "cat videos" Samples.loaded).
Proof. apply getFilteredVideos_query_case. reflexivity. Defined.

Lemma rev_rev_app (a b : string) :
  String.rev (String.rev_app a b) = String.rev_app b a.
Proof.
  revert b. induction a as [|c a IH]; intros b; simpl; [reflexivity|].
  rewrite IH. reflexivity.
Qed.

Lemma rev_involutive (s : string) : String.rev (String.rev s) = s.
Proof. unfold String.rev at 2. rewrite rev_rev_app. reflexivity. Qed.

Lemma rev_app_app (a b c : string) :
  String.rev_app (a +:+ b) c = String.rev_app b (String.rev_app a c).
Proof.
  revert c. induction a as [|x a IH]; intros c; [reflexivity|].
  rewrite append_cons. simpl. apply IH.
Qed.

Lemma rev_append (a b : string) :
  String.rev (a +:+ b) = String.rev b +:+ String.rev a.
Proof.
  unfold String.rev. rewrite rev_app_app, rev_app_append. reflexivity.
Qed.

Lemma blank_rev_app (a b : string) :
  JS.blank (String.rev_app a b) = JS.blank a && JS.blank b.
Proof.
  revert b. induction a as [|x a IH]; intros b; simpl; [reflexivity|].
  rewrite IH. simpl. destruct (Ascii.is_space x); simpl;
    [reflexivity | apply andb_false_r].
Qed.

Lemma blank_rev (s : string) : JS.blank (String.rev s) = JS.blank s.
Proof. unfold String.rev. rewrite blank_rev_app. apply andb_true_r. Qed.

Lemma trimStart_blank (s : string) :
  JS.blank s = true -> JS.trimStart s = "".
Proof.
  induction s as [|c s IH]; simpl; [reflexivity|].
  destruct (Ascii.is_space c); [exact IH | discriminate].
Qed.

Lemma trimStart_append (a b : string) :
  JS.trimStart (a +:+ b)
  = if JS.blank a then JS.trimStart b else JS.trimStart a +:+ b.
Proof.
  induction a as [|c a IH]; [reflexivity|].
  rewrite append_cons. simpl. destruct (Ascii.is_space c); simpl.
  - exact IH.
  - rewrite append_cons. reflexivity.
Qed.

Lemma trimStart_idempotent (s : string) :
  JS.trimStart (JS.trimStart s) = JS.trimStart s.
Proof.
  induction s as [|c s IH]; simpl; [reflexivity|].
  destruct (Ascii.is_space c) eqn:E; [exact IH|]. simpl. rewrite E.
  reflexivity.
Qed.

(** [trimEnd] read from the left: a text that is all white space goes, any
    other text keeps its first character. *)
Lemma trimEnd_cons (c : ascii) (r : string) :
  JS.trimEnd (String c r)
  = if Ascii.is_space c && JS.blank r then ""
    else String c (JS.trimEnd r).
Proof.
  unfold JS.trimEnd.
  assert (E : String.rev (String c r) = String.rev r +:+ String c "").
  { rewrite <- (append_empty_r (String.rev (String c r))).
    apply rev_cons_append. }
  rewrite E, trimStart_append, blank_rev.
  destruct (JS.blank r) eqn:Hb.
  - rewrite (trimStart_blank (String.rev r)) by (rewrite blank_rev; exact Hb).
    simpl. destruct (Ascii.is_space c); reflexivity.
  - rewrite andb_false_r, rev_append. reflexivity.
Qed.

Lemma trimStart_trim (s : string) : JS.trimStart (JS.trim s) = JS.trim s.
Proof.
  unfold JS.trim. induction s as [|c s IH]; [reflexivity|].
  simpl JS.trimStart at 2 3. destruct (Ascii.is_space c) eqn:E; [exact IH|].
  rewrite trimEnd_cons, E. simpl. rewrite E. reflexivity.
Qed.

Lemma trimEnd_idempotent (s : string) :
  JS.trimEnd (JS.trimEnd s) = JS.trimEnd s.
Proof.
  unfold JS.trimEnd. rewrite rev_involutive, trimStart_idempotent.
  reflexivity.
Qed.

Lemma trim_idempotent (s : string) : JS.trim (JS.trim s) = JS.trim s.
Proof.
  unfold JS.trim at 1. rewrite trimStart_trim. unfold JS.trim.
  apply trimEnd_idempotent.
Qed.

(** X12: white space around the query does not matter: the query and the
    trimmed query show the same records and the same matched document
    count. *)
Theorem search_ignores_padding (st : App.State) (q : string) :
  App.getFilteredVideos (App.setSearchText (JS.trim q) st)
  = App.getFilteredVideos (App.setSearchText q st)
  /\ App.getMatchedDocumentCount (App.setSearchText (JS.trim q) st)
     = App.getMatchedDocumentCount (App.setSearchText q st).
Proof.
  split.
  - apply getFilteredVideos_text. rewrite trim_idempotent. reflexivity.
  - unfold App.getMatchedDocumentCount. simpl. rewrite trim_idempotent.
    reflexivity.
Qed.

Example trim_samples :
  JS.trim "  a b  " = "a b" /\ JS.trim "   " = "" /\ JS.trim "ab" = "ab".
Proof. repeat split. Qed.

(** ** Fetching the list, and what the pager allows afterwards *)

Lemma ceilDiv_ge_iff (n target : Z) :
  target <= App.ceilDiv n App.PAGE_LIMIT
  <-> (target - 1) * App.PAGE_LIMIT < n.
Proof.
  unfold App.ceilDiv, App.PAGE_LIMIT.
  pose proof (Z.div_mod (- n) 1000 ltac:(lia)) as Hdm.
  pose proof (Z.mod_pos_bound (- n) 1000 ltac:(lia)) as Hb.
  lia.
Qed.

(** X13: after the list was fetched with an estimated count [n], a page
    change to [targetPage] passes the guard exactly when the target is at
    least 1, differs from the current page, and the estimated count reaches
    into that page: [(targetPage - 1) * PAGE_LIMIT < n].  The fetch itself
    leaves the current page as it is. *)
Theorem fetchVideos_pages_allowed
    (api : App.Backend) (st : App.State) (res : App.Response) (n : Z)
    (targetPage : Z) :
  api O (App.listParams st None) = Some res ->
  App.estimated_count res = Some n ->
  App.page (fst (App.fetchVideos api st)) = App.page st
  /\ (App.pageGuard (fst (App.fetchVideos api st)) targetPage = false
      <-> 1 <= targetPage
          /\ targetPage <> App.page st
          /\ (targetPage - 1) * App.PAGE_LIMIT < n).
Proof.
  intros Hapi Hn. unfold App.fetchVideos. rewrite Hapi. simpl.
  split; [reflexivity|].
  unfold App.pageGuard. simpl. rewrite Hn. simpl.
  rewrite !orb_false_iff, !Z.ltb_ge, Z.eqb_neq, ceilDiv_ge_iff. tauto.
Qed.

Lemma fetchVideos_pages_allowed_witness :
  App.page (fst (App.fetchVideos Samples.finiteBackend App.initial))
  = App.page App.initial
  /\ (App.pageGuard (fst (App.fetchVideos Samples.finiteBackend App.initial)) 3
      = false
      <-> 1 <= 3 /\ 3 <> App.page App.initial
          /\ (3 - 1) * App.PAGE_LIMIT < 3000).
Proof.
  apply (fetchVideos_pages_allowed Samples.finiteBackend App.initial
           {| App.data := Some [Samples.bird]; App.filter_counts := None;
              App.estimated_count := Some 3000;
              App.next_cursor := Some "more" |});
    reflexivity.
Defined.

(** X14: a failed list fetch changes nothing but the loading flag, which it
    clears: the records, the cursor, the counts and the page stay as they
    were, the table shows the records it showed before the fetch began, and
    the error is only logged. *)
Theorem fetchVideos_failure_keeps_state (api : App.Backend) (st : App.State) :
  api O (App.listParams st None) = None ->
  fst (App.fetchVideos api st) = App.setLoading false st
  /\ App.getFilteredVideos (fst (App.fetchVideos api st))
     = App.getFilteredVideos st
  /\ App.getMatchedDocumentCount (fst (App.fetchVideos api st))
     = App.getMatchedDocumentCount st
  /\ App.tableRows (fst (App.fetchVideos api st))
     = App.jsSlice ((App.page st - 1) * App.PAGE_LIMIT)
         (App.page st * App.PAGE_LIMIT) (App.getFilteredVideos st)
  /\ snd (App.fetchVideos api st)
     = [App.HttpGet (App.listParams st None);
        App.ConsoleError "Error fetching videos:"].
Proof.
  intros Hapi. unfold App.fetchVideos. rewrite Hapi.
  split; [reflexivity|]. split; [reflexivity|]. split; [reflexivity|].
  split; [|reflexivity].
  exact (tableRows_slice (App.setLoading false st) eq_refl).
Qed.

Lemma fetchVideos_failure_keeps_state_witness :
  fst (App.fetchVideos (fun _ _ => None) Samples.searching)
  = App.setLoading false Samples.searching
  /\ App.getFilteredVideos (fst (App.fetchVideos (fun _ _ => None)
                                   Samples.searching))
     = App.getFilteredVideos Samples.searching
  /\ App.getMatchedDocumentCount (fst (App.fetchVideos (fun _ _ => None)
                                         Samples.searching))
     = App.getMatchedDocumentCount Samples.searching
  /\ App.tableRows (fst (App.fetchVideos (fun _ _ => None) Samples.searching))
     = App.jsSlice ((App.page Samples.searching - 1) * App.PAGE_LIMIT)
         (App.page Samples.searching * App.PAGE_LIMIT)
         (App.getFilteredVideos Samples.searching)
  /\ snd (App.fetchVideos (fun _ _ => None) Samples.searching)
     = [App.HttpGet (App.listParams Samples.searching None);
        App.ConsoleError "Error fetching videos:"].
Proof. apply fetchVideos_failure_keeps_state. reflexivity. Defined.

(** X15: when the cursor is exhausted, or the held filtered records already
    cover the requested page, a page change that passes the guard sends no
    request.  It still replaces the videos list by the filtered view, so the
    records the local filter hid are gone from the state: Reset afterwards
    shows the filtered records only. *)
Theorem handlePageChange_without_fetch
    (api : App.Backend) (fuel : nat) (st : App.State) (targetPage : Z) :
  App.pageGuard st targetPage = false ->
  App.cursorTruthy (App.nextCursor st) = false
  \/ targetPage * App.PAGE_LIMIT
     <= Z.of_nat (length (App.getFilteredVideos st)) ->
  exists st',
    App.handlePageChange api fuel targetPage st
    = Some (st', [App.ScrollTo 300])
    /\ App.videos st' = App.getFilteredVideos st
    /\ App.nextCursor st' = App.nextCursor st
    /\ App.page st' = targetPage
    /\ App.getFilteredVideos (App.reset st') = App.getFilteredVideos st.
Proof.
  intros Hguard Hstop. unfold App.handlePageChange. rewrite Hguard.
  cbv zeta. rewrite fetchLoop_unfold.
  assert (Hc : (Z.of_nat (length (App.getFilteredVideos st))
                <? targetPage * App.PAGE_LIMIT)
               && App.cursorTruthy (App.nextCursor st) = false).
  { destruct Hstop as [H|H].
    - rewrite H. apply andb_false_r.
    - apply Z.ltb_ge in H. rewrite H. reflexivity. }
  rewrite Hc. eexists. split; [reflexivity|]. repeat split.
Qed.

Lemma handlePageChange_without_fetch_witness :
  exists st',
    App.handlePageChange (fun _ _ => None) 0 2
      (App.setTotalPages (Some 2) Samples.searching)
    = Some (st', [App.ScrollTo 300])
    /\ App.videos st'
       = App.getFilteredVideos (App.setTotalPages (Some 2) Samples.searching)
    /\ App.nextCursor st'
       = App.nextCursor (App.setTotalPages (Some 2) Samples.searching)
    /\ App.page st' = 2
    /\ App.getFilteredVideos (App.reset st')
       = App.getFilteredVideos (App.setTotalPages (Some 2) Samples.searching).
Proof.
  apply handlePageChange_without_fetch; [reflexivity | left; reflexivity].
Defined.

(** ** Invariants of the reachable states *)

Lemma orNull_normal (c : option string) : Flow.cursorNormal (App.orNull c).
Proof.
  unfold Flow.cursorNormal, App.orNull.
  destruct (App.cursorTruthy c) eqn:E; auto.
Qed.

Lemma fetchLoop_cursor_normal (api : App.Backend) (st : App.State)
    (required : Z) (fuel : nat) :
  forall n buffer cursor buffer' cursor' log,
    App.fetchLoop api st required fuel n buffer cursor
    = Some (App.Finished buffer' cursor', log) ->
    Flow.cursorNormal cursor ->
    Flow.cursorNormal cursor'.
Proof.
  induction fuel as [|fuel IH]; intros n buffer cursor buffer' cursor' log H Hn;
    rewrite fetchLoop_unfold in H;
    destruct ((Z.of_nat (length buffer) <? required)
              && App.cursorTruthy cursor);
    try discriminate; try (injection H as <- <- <-; exact Hn).
  destruct (api n (App.listParams st cursor)) as [res|]; [|discriminate].
  destruct (App.fetchLoop api st required fuel (S n)
              (buffer ++ default [] (App.data res))
              (App.orNull (App.next_cursor res)))
    as [[r log']|] eqn:E; [|discriminate].
  injection H as -> <-.
  exact (IH _ _ _ _ _ _ E (orNull_normal _)).
Qed.

(** The steps that are not filter changes leave the filter boxes and their
    chips alone. *)
Lemma step_filters (st st' : App.State) :
  Flow.step st st' ->
  (App.filters st' = App.filters st
   /\ App.appliedFilters st' = App.appliedFilters st)
  \/ (exists field value, st' = App.handleFilterChange field value st)
  \/ st' = App.reset st.
Proof.
  intros H. destruct H; auto.
  - left. unfold App.fetchVideos.
    destruct (api O (App.listParams st None)); split; reflexivity.
  - left. unfold App.fetchFilterCounts.
    destruct (negb (JS.truthy (JS.trim (App.searchText st))));
      [split; reflexivity|].
    destruct (capi (App.searchText st)); split; reflexivity.
  - left. unfold App.handlePageChange in H.
    destruct (App.pageGuard st targetPage).
    { injection H as <- <-. split; reflexivity. }
    destruct (App.fetchLoop api st (targetPage * App.PAGE_LIMIT) fuel 0
                (App.getFilteredVideos st) (App.nextCursor st))
      as [[[buffer cursor|] log]|]; try discriminate;
      injection H as <- <-; split; reflexivity.
  - left. unfold App.handleDelete.
    destruct (negb confirmed); [split; reflexivity|].
    destruct http; split; reflexivity.
  - left. unfold AddEditModal.submit.
    destruct (AddEditModal.handleSubmit video formData http (App.videos st)).
    split; reflexivity.
  - right. left. eauto.
Qed.

(** X16: in every reachable state the page number is at least 1 and the
    stored cursor is [null] or a non-empty string. *)
Theorem reachable_page_and_cursor (st : App.State) :
  Flow.reachable st ->
  1 <= App.page st /\ Flow.cursorNormal (App.nextCursor st).
Proof.
  induction 1 as [|st st' _ [IHp IHc] Hstep].
  - split; [simpl; lia | left; reflexivity].
  - destruct Hstep; try (split; [exact IHp | exact IHc]).
    + unfold App.fetchVideos.
      destruct (api O (App.listParams st None)); simpl;
        (split; [exact IHp|]); [apply orNull_normal | exact IHc].
    + unfold App.fetchFilterCounts.
      destruct (negb (JS.truthy (JS.trim (App.searchText st))));
        [split; assumption|].
      destruct (capi (App.searchText st)); split; assumption.
    + unfold App.handlePageChange in H.
      destruct (App.pageGuard st targetPage) eqn:G.
      { injection H as <- <-. split; assumption. }
      assert (Ht : 1 <= targetPage).
      { unfold App.pageGuard in G. apply orb_false_iff in G as [G _].
        apply orb_false_iff in G as [G _]. apply Z.ltb_ge in G. exact G. }
      destruct (App.fetchLoop api st (targetPage * App.PAGE_LIMIT) fuel 0
                  (App.getFilteredVideos st) (App.nextCursor st))
        as [[[buffer cursor|] log]|] eqn:E; try discriminate;
        injection H as <- <-; simpl; (split; [exact Ht|]).
      * exact (fetchLoop_cursor_normal _ _ _ _ _ _ _ _ _ _ E IHc).
      * exact IHc.
    + unfold App.handleDelete.
      destruct (negb confirmed); [split; assumption|].
      destruct http; split; assumption.
    + unfold AddEditModal.submit.
      destruct (AddEditModal.handleSubmit video formData http (App.videos st)).
      split; assumption.
    + split; [simpl; lia | exact IHc].
Qed.

Lemma reachable_page_and_cursor_witness :
  1 <= App.page Samples.finiteState
  /\ Flow.cursorNormal (App.nextCursor Samples.finiteState).
Proof.
  apply reachable_page_and_cursor.
  eapply Flow.reachable_step; [apply Flow.reachable_initial|].
  apply Flow.step_fetchVideos.
Defined.

Lemma keyName_inj (k k' : App.FilterKey) :
  App.keyName k = App.keyName k' -> k = k'.
Proof. destruct k, k'; simpl; intros H; congruence. Qed.

Lemma getFilter_setFilter (k k' : App.FilterKey) (value : string)
    (f : App.Filters) :
  App.getFilter k' (App.setFilter k value f)
  = if String.eqb (App.keyName k') (App.keyName k) then value
    else App.getFilter k' f.
Proof. destruct k, k'; reflexivity. Qed.

Lemma handleFilterChange_chips (field : App.FilterKey) (value : string)
    (st : App.State) :
  Flow.chipsMirrorFilters st ->
  Flow.chipsMirrorFilters (App.handleFilterChange field value st).
Proof.
  intros IH f v. unfold App.handleFilterChange. simpl.
  assert (Hin : In (f, v)
                  (if JS.truthy (JS.trim value)
                   then List.filter
                          (fun e =>
                             negb (String.eqb (fst e) (App.keyName field)))
                          (App.appliedFilters st)
                        ++ [(App.keyName field, value)]
                   else List.filter
                          (fun e =>
                             negb (String.eqb (fst e) (App.keyName field)))
                          (App.appliedFilters st))
                <-> (In (f, v) (App.appliedFilters st)
                     /\ f <> App.keyName field)
                    \/ (f = App.keyName field /\ v = value
                        /\ JS.trim value <> "")).
  { rewrite <- truthy_true_iff.
    destruct (JS.truthy (JS.trim value)).
    - rewrite in_app_iff, List.filter_In. simpl.
      rewrite negb_true_iff, String.eqb_neq.
      split; intros [H|H]; auto.
      + destruct H as [H|[]]. injection H as <- <-. auto.
      + destruct H as (-> & -> & _). auto.
    - rewrite List.filter_In. simpl. rewrite negb_true_iff, String.eqb_neq.
      split; [auto|]. intros [H|(_ & _ & H)]; [exact H | congruence]. }
  rewrite Hin. clear Hin. split.
  - intros [[H Hne]|(-> & -> & Hv)].
    + apply IH in H as (k & -> & -> & Hv). exists k.
      rewrite getFilter_setFilter.
      destruct (String.eqb (App.keyName k) (App.keyName field)) eqn:E.
      * apply String.eqb_eq in E. contradiction.
      * auto.
    + exists field. rewrite getFilter_setFilter, String.eqb_refl. auto.
  - intros (k & -> & Hv & Hne). rewrite getFilter_setFilter in Hv.
    destruct (String.eqb (App.keyName k) (App.keyName field)) eqn:E.
    + apply String.eqb_eq in E. right. rewrite E. subst v. auto.
    + apply String.eqb_neq in E. left. split; [|exact E].
      apply IH. exists k. auto.
Qed.

Lemma handleFilterChange_chips_nodup (field : App.FilterKey) (value : string)
    (st : App.State) :
  List.NoDup (fst <$> App.appliedFilters st) ->
  List.NoDup (fst <$> App.appliedFilters
                        (App.handleFilterChange field value st)).
Proof.
  intros IH. unfold App.handleFilterChange. simpl.
  set (kept := List.filter
                 (fun e => negb (String.eqb (fst e) (App.keyName field)))
                 (App.appliedFilters st)).
  assert (Hk : List.NoDup (fst <$> kept)).
  { subst kept. induction (App.appliedFilters st) as [|e l IHl];
      simpl; [constructor|].
    inversion IH as [|? ? Hnotin Hnd]; subst.
    destruct (negb (String.eqb (fst e) (App.keyName field))); simpl;
      [|apply IHl, Hnd].
    constructor; [|apply IHl, Hnd].
    intros Hin. apply Hnotin.
    apply in_map_iff in Hin as (e' & He' & Hin).
    apply List.filter_In in Hin as [Hin _].
    apply in_map_iff. exists e'. auto. }
  destruct (JS.truthy (JS.trim value)); [|exact Hk].
  rewrite fmap_app. simpl. apply NoDup_ListNoDup.
  apply NoDup_app. split; [apply NoDup_ListNoDup, Hk|]. split.
  - intros x Hx Hx'. apply list_elem_of_singleton in Hx'. subst x.
    apply list_elem_of_In, in_map_iff in Hx as (e & He & Hin).
    subst kept. apply List.filter_In in Hin as [_ Hin].
    rewrite He, String.eqb_refl in Hin. discriminate.
  - apply NoDup_singleton.
Qed.

(** X17: in every reachable state the chips of [appliedFilters] mirror the
    filter boxes: there is a chip for a field exactly when its box is
    non-empty after trimming, the chip carries the text of the box, and no
    field has two chips. *)
Theorem reachable_chips_mirror_filters (st : App.State) :
  Flow.reachable st ->
  Flow.chipsMirrorFilters st
  /\ List.NoDup (fst <$> App.appliedFilters st).
Proof.
  induction 1 as [|st st' _ [IHm IHn] Hstep].
  - split; [|constructor].
    intros f v. simpl. split; [tauto|].
    intros (k & _ & -> & H). destruct k; exfalso; apply H; reflexivity.
  - destruct (step_filters st st' Hstep)
      as [[Hf Ha]|[(field & value & ->)| ->]].
    + split.
      * intros f v. unfold Flow.chipsMirrorFilters in IHm.
        rewrite Ha, Hf. apply IHm.
      * rewrite Ha. exact IHn.
    + split; [apply handleFilterChange_chips, IHm
             |apply handleFilterChange_chips_nodup, IHn].
    + split; [|constructor].
      intros f v. simpl. split; [tauto|].
      intros (k & _ & -> & H). destruct k; exfalso; apply H; reflexivity.
Qed.

Lemma reachable_chips_mirror_filters_witness :
  Flow.chipsMirrorFilters
    (App.handleFilterChange App.TitleKey "dog" App.initial)
  /\ List.NoDup
       (fst <$> App.appliedFilters
                  (App.handleFilterChange App.TitleKey "dog" App.initial)).
Proof.
  apply reachable_chips_mirror_filters.
  eapply Flow.reachable_step; [apply Flow.reachable_initial|].
  apply Flow.step_handleFilterChange.
Defined.

(** X18: clearing a filter box after setting it gives the same state as
    clearing it right away: the value that was set in between leaves no
    trace in the boxes or in the chips. *)
Theorem handleFilterChange_set_then_clear
    (field : App.FilterKey) (value : string) (st : App.State) :
  App.handleFilterChange field "" (App.handleFilterChange field value st)
  = App.handleFilterChange field "" st.
Proof.
  unfold App.handleFilterChange. simpl.
  assert (Hf : App.setFilter field ""
                 (App.setFilter field value (App.filters st))
               = App.setFilter field "" (App.filters st))
    by (destruct field; reflexivity).
  rewrite Hf. clear Hf.
  assert (Ha : List.filter
                 (fun f => negb (String.eqb (fst f) (App.keyName field)))
                 (if JS.truthy (JS.trim value)
                  then List.filter
                         (fun f =>
                            negb (String.eqb (fst f) (App.keyName field)))
                         (App.appliedFilters st)
                       ++ [(App.keyName field, value)]
                  else List.filter
                         (fun f =>
                            negb (String.eqb (fst f) (App.keyName field)))
                         (App.appliedFilters st))
               = List.filter
                   (fun f => negb (String.eqb (fst f) (App.keyName field)))
                   (App.appliedFilters st)).
  { destruct (JS.truthy (JS.trim value)).
    - rewrite List.filter_app. simpl. rewrite String.eqb_refl. simpl.
      rewrite app_nil_r, filter_filter_andb.
      apply filter_ext_bool. intros x. apply andb_diag.
    - rewrite filter_filter_andb.
      apply filter_ext_bool. intros x. apply andb_diag. }
  rewrite Ha. reflexivity.
Qed.

(** ** More on deleting a row *)

Lemma filter_out_absent {A K} `{EqDecision K} (key : A -> K) (k : K)
    (l : list A) :
  ~ In k (List.map key l) ->
  List.filter (fun x => negb (bool_decide (key x = k))) l = l.
Proof.
  intros Hnot. induction l as [|x l IH]; simpl; [reflexivity|].
  rewrite bool_decide_eq_false_2.
  - simpl. f_equal. apply IH. intros H. apply Hnot. right. exact H.
  - intros E. apply Hnot. left. exact E.
Qed.

(** X19: a confirmed and successful delete keeps exactly the records whose
    identifier differs from the deleted one, in their order: every record with
    that identifier goes (also when several share it), and when no record has
    it the list is unchanged. *)
Theorem handleDelete_keeps_other_ids (st : App.State) (id : option string) :
  (forall v,
      In v (App.videos (fst (App.handleDelete true (Some tt) id st)))
      <-> In v (App.videos st) /\ App._id v <> id)
  /\ App.videos (fst (App.handleDelete true (Some tt) id st))
     `sublist_of` App.videos st
  /\ (~ In id (List.map App._id (App.videos st)) ->
      App.videos (fst (App.handleDelete true (Some tt) id st))
      = App.videos st).
Proof.
  simpl. split; [|split].
  - intros v. rewrite List.filter_In, negb_true_iff, bool_decide_eq_false.
    reflexivity.
  - apply filter_sublist_of.
  - apply filter_out_absent.
Qed.

(** X20: whatever the answers of the user and of the backend, a delete
    touches nothing but the videos list and never adds to it; the list changes
    only if the user confirmed, the request succeeded and some record carries
    the identifier; and a DELETE request is sent exactly when the user
    confirmed. *)
Theorem handleDelete_frame
    (confirmed : bool) (http : option unit) (id : option string)
    (st : App.State) :
  fst (App.handleDelete confirmed http id st)
  = App.setVideos (App.videos (fst (App.handleDelete confirmed http id st))) st
  /\ App.videos (fst (App.handleDelete confirmed http id st))
     `sublist_of` App.videos st
  /\ (App.videos (fst (App.handleDelete confirmed http id st))
      <> App.videos st ->
      confirmed = true /\ http <> None
      /\ In id (List.map App._id (App.videos st)))
  /\ (In (App.HttpDelete id) (snd (App.handleDelete confirmed http id st))
      <-> confirmed = true).
Proof.
  unfold App.handleDelete.
  destruct confirmed; [destruct http as [u|]|]; simpl;
    rewrite ?setVideos_same.
  - split; [reflexivity|]. split; [apply filter_sublist_of|]. split.
    + intros Hne. split; [reflexivity|]. split; [discriminate|].
      destruct (decide (id ∈ List.map App._id (App.videos st)))
        as [Hin|Hnot]; [apply list_elem_of_In, Hin|].
      exfalso. apply Hne. apply filter_out_absent.
      intros H. apply Hnot, list_elem_of_In, H.
    + split; auto.
  - split; [reflexivity|]. split; [reflexivity|]. split; [congruence|].
    split; auto.
  - split; [reflexivity|]. split; [reflexivity|]. split; [congruence|].
    split; [intros [H|[]]; discriminate | discriminate].
Qed.

(** ** The form of the Add/Edit modal *)

Lemma lookup_form (g : string -> string) (keys : list string) (key : string) :
  (list_to_map ((fun k => (k, g k)) <$> keys) : gmap string string) !! key
  = if bool_decide (key ∈ keys) then Some (g key) else None.
Proof.
  induction keys as [|k keys IH].
  { rewrite bool_decide_eq_false_2 by apply not_elem_of_nil.
    apply lookup_empty. }
  rewrite fmap_cons, list_to_map_cons.
  destruct (decide (k = key)) as [->|Hne].
  - rewrite lookup_insert_eq, bool_decide_eq_true_2 by apply list_elem_of_here.
    reflexivity.
  - rewrite lookup_insert_ne by exact Hne. rewrite IH.
    apply (f_equal (fun b : bool => if b then Some (g key) else None)).
    apply bool_decide_ext. rewrite elem_of_cons. split; [auto|].
    intros [E|E]; [congruence | exact E].
Qed.

Lemma initForm_lookup (video : option App.Video) (key : string) :
  AddEditModal.initForm video !! key
  = if bool_decide (key ∈ AddEditModal.FIELDS)
    then Some (match video with
               | Some v => default "" (v !! key)
               | None => ""
               end)
    else None.
Proof.
  destruct video as [v|]; unfold AddEditModal.initForm.
  - apply (lookup_form (fun k => default "" (v !! k))).
  - apply (lookup_form (fun _ => "")).
Qed.

Lemma formState_keys (video : option App.Video) (formData : App.Video) :
  AddEditModal.formState video formData ->
  forall key, is_Some (formData !! key) <-> key ∈ AddEditModal.FIELDS.
Proof.
  induction 1 as [|name value formData Hname _ IH|value formData _ IH];
    intros key.
  - rewrite initForm_lookup. destruct (decide (key ∈ AddEditModal.FIELDS)).
    + rewrite bool_decide_eq_true_2 by assumption. split; eauto.
    + rewrite bool_decide_eq_false_2 by assumption.
      split; [intros [? ?]; discriminate | contradiction].
  - unfold AddEditModal.handleChange. rewrite lookup_insert_is_Some, IH.
    split; [intros [->|[_ H]]; assumption|].
    intros H. destruct (decide (name = key)); auto.
  - unfold AddEditModal.handleEditorChange.
    rewrite lookup_insert_is_Some, IH.
    split; [intros [<-|[_ H]]; [compute_done | assumption]|].
    intros H. destruct (decide ("transcriptText" = key)); auto.
Qed.

Lemma id_not_a_field : "_id" ∉ AddEditModal.FIELDS.
Proof. compute_done. Qed.

(** X21: whatever the user types, the form data has exactly the seven keys
    of [FIELDS]; in particular it never carries an [_id]. *)
Theorem formState_has_the_fields
    (video : option App.Video) (formData : App.Video) :
  AddEditModal.formState video formData ->
  (forall key, is_Some (formData !! key) <-> key ∈ AddEditModal.FIELDS)
  /\ formData !! "_id" = None.
Proof.
  intros H. split; [apply (formState_keys video), H|].
  apply eq_None_not_Some. intros Hs.
  apply (formState_keys video formData H) in Hs. exact (id_not_a_field Hs).
Qed.

Lemma formState_has_the_fields_witness :
  (forall key,
      is_Some (AddEditModal.handleChange "title" "Dog school"
                 (AddEditModal.initForm (Some Samples.dog)) !! key)
      <-> key ∈ AddEditModal.FIELDS)
  /\ AddEditModal.handleChange "title" "Dog school"
       (AddEditModal.initForm (Some Samples.dog)) !! "_id" = None.
Proof.
  apply (formState_has_the_fields (Some Samples.dog)).
  apply AddEditModal.form_change; [compute_done | apply AddEditModal.form_init].
Defined.

Lemma spread_lookup (video : option App.Video) (item formData : App.Video)
    (key : string) :
  AddEditModal.formState video formData ->
  AddEditModal.spread item formData !! key
  = if bool_decide (key ∈ AddEditModal.FIELDS) then formData !! key
    else item !! key.
Proof.
  intros H. unfold AddEditModal.spread.
  pose proof (formState_keys video formData H key) as Hk.
  destruct (decide (key ∈ AddEditModal.FIELDS)) as [Hin|Hnot].
  - rewrite bool_decide_eq_true_2 by assumption.
    apply Hk in Hin as [x Hx]. rewrite Hx.
    apply lookup_union_Some_l, Hx.
  - rewrite bool_decide_eq_false_2 by assumption.
    apply lookup_union_r, eq_None_not_Some. rewrite Hk. exact Hnot.
Qed.

(** X22: a successful update keeps the identifiers of the list, in order,
    and so its length: the form data carries no [_id], and patching a record
    keeps its own. *)
Theorem update_keeps_identifiers
    (edited formData res : App.Video) (prev : list App.Video) :
  AddEditModal.formState (Some edited) formData ->
  App._id <$> fst (AddEditModal.handleSubmit (Some edited) formData (Some res)
                     prev)
  = App._id <$> prev
  /\ length (fst (AddEditModal.handleSubmit (Some edited) formData (Some res)
                    prev))
     = length prev.
Proof.
  intros H. simpl. split; [|apply length_fmap].
  rewrite <- list_fmap_compose. apply list_fmap_ext. intros i item _. simpl.
  destruct (bool_decide (App._id item = App._id edited)); [|reflexivity].
  unfold App._id. rewrite (spread_lookup (Some edited)) by exact H.
  rewrite bool_decide_eq_false_2 by exact id_not_a_field. reflexivity.
Qed.

Lemma update_keeps_identifiers_witness :
  App._id <$> fst (AddEditModal.handleSubmit (Some Samples.dog)
                     (AddEditModal.initForm (Some Samples.dog))
                     (Some Samples.dog) [Samples.cat; Samples.dog])
  = App._id <$> [Samples.cat; Samples.dog]
  /\ length (fst (AddEditModal.handleSubmit (Some Samples.dog)
                    (AddEditModal.initForm (Some Samples.dog))
                    (Some Samples.dog) [Samples.cat; Samples.dog]))
     = length [Samples.cat; Samples.dog].
Proof. apply update_keeps_identifiers, AddEditModal.form_init. Defined.

(** X23: a successful update overwrites, in the records that carry the
    identifier of the edited one, exactly the seven form fields with the form
    data and keeps every other property; records with another identifier are
    left as they are. *)
Theorem update_patches_the_fields
    (edited formData res : App.Video) (prev : list App.Video)
    (i : nat) (item : App.Video) :
  AddEditModal.formState (Some edited) formData ->
  prev !! i = Some item ->
  exists item',
    fst (AddEditModal.handleSubmit (Some edited) formData (Some res) prev) !! i
    = Some item'
    /\ (App._id item <> App._id edited -> item' = item)
    /\ (App._id item = App._id edited ->
        forall key,
          item' !! key
          = if bool_decide (key ∈ AddEditModal.FIELDS) then formData !! key
            else item !! key).
Proof.
  intros Hform Hi. simpl. rewrite list_lookup_fmap, Hi. simpl.
  eexists. split; [reflexivity|]. split.
  - intros Hne. rewrite bool_decide_eq_false_2 by exact Hne. reflexivity.
  - intros He key. rewrite bool_decide_eq_true_2 by exact He.
    apply (spread_lookup (Some edited)), Hform.
Qed.

Lemma update_patches_the_fields_witness :
  exists item',
    fst (AddEditModal.handleSubmit (Some Samples.dog)
           (AddEditModal.initForm (Some Samples.dog)) (Some Samples.dog)
           [Samples.cat; Samples.dog]) !! 1%nat
    = Some item'
    /\ (App._id Samples.dog <> App._id Samples.dog -> item' = Samples.dog)
    /\ (App._id Samples.dog = App._id Samples.dog ->
        forall key,
          item' !! key
          = if bool_decide (key ∈ AddEditModal.FIELDS)
            then AddEditModal.initForm (Some Samples.dog) !! key
            else Samples.dog !! key).
Proof.
  apply update_patches_the_fields;
    [apply AddEditModal.form_init | reflexivity].
Defined.

Lemma unique_by_key {A K} (key : A -> K) (l : list A) (v w : A) :
  List.NoDup (key <$> l) -> In v l -> In w l -> key w = key v -> w = v.
Proof.
  induction l as [|x l IH]; simpl; intros Hnd Hv Hw E; [contradiction|].
  inversion Hnd as [|? ? Hx Hnd']; subst.
  destruct Hv as [->|Hv], Hw as [->|Hw]; trivial.
  - exfalso. apply Hx. rewrite <- E. apply in_map, Hw.
  - exfalso. apply Hx. rewrite E. apply in_map, Hv.
  - apply IH; assumption.
Qed.

(** X24: opening the edit modal on a record of the list and saving the form
    as it was filled in leaves the list as it was, provided identifiers are
    unique and the record has all seven form fields.  (A field the record
    lacks would be added as the empty string.) *)
Theorem update_unchanged_form_round_trip
    (edited res : App.Video) (prev : list App.Video) :
  List.NoDup (App._id <$> prev) ->
  In edited prev ->
  (forall key, key ∈ AddEditModal.FIELDS -> is_Some (edited !! key)) ->
  fst (AddEditModal.handleSubmit (Some edited)
         (AddEditModal.initForm (Some edited)) (Some res) prev)
  = prev.
Proof.
  intros Hnd Hin Hall. unfold AddEditModal.handleSubmit. cbn [fst].
  rewrite <- (list_fmap_id prev) at 2.
  apply list_fmap_ext. intros i item Hi. unfold id.
  destruct (decide (App._id item = App._id edited)) as [E|N].
  - rewrite bool_decide_eq_true_2 by exact E.
    assert (item = edited) as ->.
    { apply (unique_by_key App._id prev); trivial.
      apply list_elem_of_In, (list_elem_of_lookup_2 _ i), Hi. }
    apply map_eq. intros key.
    rewrite (spread_lookup (Some edited)) by apply AddEditModal.form_init.
    rewrite initForm_lookup.
    destruct (decide (key ∈ AddEditModal.FIELDS)) as [Hk|Hk].
    + rewrite !bool_decide_eq_true_2 by exact Hk.
      destruct (Hall key Hk) as [x Hx]. rewrite Hx. reflexivity.
    + rewrite bool_decide_eq_false_2 by exact Hk. reflexivity.
  - rewrite bool_decide_eq_false_2 by exact N. reflexivity.
Qed.

(** ** The filter counts *)

Lemma negb_eqb_empty (s : string) :
  negb (String.eqb s "") = JS.truthy s.
Proof. destruct s; reflexivity. Qed.

(** X25: with no search text (after trimming) [fetchFilterCounts] sends no
    request and sets every count to 0; the matched document count is then 0
    as soon as some filter box is in use, and the estimated count
    otherwise. *)
Theorem fetchFilterCounts_blank_search
    (capi : App.CountsBackend) (st : App.State) :
  JS.trim (App.searchText st) = "" ->
  snd (App.fetchFilterCounts capi st) = []
  /\ App.filterCounts (fst (App.fetchFilterCounts capi st)) = App.zeroCounts
  /\ App.getMatchedDocumentCount (fst (App.fetchFilterCounts capi st))
     = if App.hasFilters st then Some 0 else App.estimatedCount st.
Proof.
  intros Hq. unfold App.fetchFilterCounts. rewrite Hq. simpl.
  split; [reflexivity|]. split; [reflexivity|].
  unfold App.getMatchedDocumentCount, App.hasFilters. simpl.
  rewrite Hq, !negb_eqb_empty. simpl.
  destruct (JS.truthy (JS.trim (App.title (App.filters st))));
    [reflexivity|].
  destruct (JS.truthy (JS.trim (App.description (App.filters st))));
    [reflexivity|].
  destruct (JS.truthy (JS.trim (App.transcriptText (App.filters st))));
    reflexivity.
Qed.

Lemma fetchFilterCounts_blank_search_witness :
  snd (App.fetchFilterCounts (fun _ => None)
         (App.setFilters Samples.boxes Samples.loaded)) = []
  /\ App.filterCounts
       (fst (App.fetchFilterCounts (fun _ => None)
               (App.setFilters Samples.boxes Samples.loaded)))
     = App.zeroCounts
  /\ App.getMatchedDocumentCount
       (fst (App.fetchFilterCounts (fun _ => None)
               (App.setFilters Samples.boxes Samples.loaded)))
     = if App.hasFilters (App.setFilters Samples.boxes Samples.loaded)
       then Some 0
       else App.estimatedCount (App.setFilters Samples.boxes Samples.loaded).
Proof. apply fetchFilterCounts_blank_search. reflexivity. Defined.

Lemma update_unchanged_form_round_trip_witness :
  fst (AddEditModal.handleSubmit (Some Samples.full)
         (AddEditModal.initForm (Some Samples.full)) (Some Samples.full)
         [Samples.cat; Samples.full])
  = [Samples.cat; Samples.full].
Proof.
  apply update_unchanged_form_round_trip.
  - apply NoDup_ListNoDup. compute_done.
  - right. left. reflexivity.
  - intros key H. unfold AddEditModal.FIELDS in H.
    repeat (apply elem_of_cons in H as [->|H]; [eexists; reflexivity|]).
    apply elem_of_nil in H. contradiction.
Defined.

(** ** The pagination bar *)

Lemma loopRange_elem (a b p : Z) : p ∈ App.loopRange a b <-> a <= p <= b.
Proof.
  unfold App.loopRange. rewrite list_elem_of_fmap. split.
  - intros (i & -> & Hi). apply elem_of_seq in Hi. lia.
  - intros H. exists (Z.to_nat (p - a)). split; [lia|].
    apply elem_of_seq. lia.
Qed.

Lemma loopRange_length (a b : Z) :
  length (App.loopRange a b) = Z.to_nat (b - a + 1).
Proof. unfold App.loopRange. rewrite length_fmap, length_seq. reflexivity. Qed.

Lemma loopRange_NoDup (a b : Z) : NoDup (App.loopRange a b).
Proof.
  unfold App.loopRange. apply NoDup_fmap_2; [|apply NoDup_seq].
  intros i j H. lia.
Qed.

Lemma buttonPages_numbers (l : list Z) :
  App.buttonPages (App.PageNumber <$> l) = l.
Proof.
  unfold App.buttonPages. induction l as [|p l IH]; [reflexivity|].
  rewrite fmap_cons. cbn [omap list_omap]. rewrite IH. reflexivity.
Qed.

Lemma buttonPages_app (l k : list App.PageButton) :
  App.buttonPages (l ++ k) = App.buttonPages l ++ App.buttonPages k.
Proof. unfold App.buttonPages. apply omap_app. Qed.

Lemma paginationButtons_pages (page total : Z) :
  App.buttonPages (App.paginationButtons page (Some total))
  = 1 :: App.loopRange (App.startPage page total) (App.endPage page total)
      ++ (if 1 <? total then [total] else []).
Proof.
  unfold App.paginationButtons. cbv zeta.
  fold (App.startPage page total). fold (App.endPage page total).
  rewrite !buttonPages_app, buttonPages_numbers.
  destruct (2 <? App.startPage page total);
    destruct (App.endPage page total <? total - 1);
    destruct (1 <? total); reflexivity.
Qed.

Lemma page_window_bounds (page total : Z) :
  2 <= App.startPage page total
  /\ App.endPage page total <= total - 1
  /\ App.endPage page total - App.startPage page total + 1 <= 5.
Proof.
  unfold App.startPage, App.endPage.
  destruct (total - 3 <=? page) eqn:E1; destruct (page <=? 4) eqn:E2;
    try apply Z.leb_le in E1; try apply Z.leb_gt in E1;
    try apply Z.leb_le in E2; try apply Z.leb_gt in E2; lia.
Qed.

(** X26: the pagination bar shows at most seven page numbers, starting
    with 1, and no number twice (the numbers are the keys of the buttons),
    whatever the current page and the number of pages. *)
Theorem paginationButtons_numbers (page total : Z) :
  NoDup (App.buttonPages (App.paginationButtons page (Some total)))
  /\ (length (App.buttonPages (App.paginationButtons page (Some total)))
      <= 7)%nat
  /\ head (App.buttonPages (App.paginationButtons page (Some total)))
     = Some 1.
Proof.
  rewrite paginationButtons_pages.
  destruct (page_window_bounds page total) as (Hs & He & Hw).
  split; [|split; [|reflexivity]].
  - apply NoDup_cons. split.
    + rewrite elem_of_app, loopRange_elem. intros [H|H]; [lia|].
      destruct (1 <? total) eqn:E; [|apply elem_of_nil in H; exact H].
      apply list_elem_of_singleton in H. apply Z.ltb_lt in E. lia.
    + apply NoDup_app. split; [apply loopRange_NoDup|]. split.
      * intros p Hp Hp'. apply loopRange_elem in Hp.
        destruct (1 <? total); [|apply elem_of_nil in Hp'; exact Hp'].
        apply list_elem_of_singleton in Hp'. lia.
      * destruct (1 <? total); [apply NoDup_singleton | apply NoDup_nil_2].
  - cbn [length]. rewrite length_app, loopRange_length.
    destruct (1 <? total); cbn [length]; lia.
Qed.

(** X27: with the current page between 1 and the number of pages, every
    number shown in the pagination bar is a page between 1 and the number of
    pages, the current page is among them, and a click on any other shown
    number passes the guard of [handlePageChange]. *)
Theorem paginationButtons_targets
    (st : App.State) (total : Z) :
  App.totalPages st = Some total ->
  1 <= App.page st <= total ->
  App.page st
    ∈ App.buttonPages (App.paginationButtons (App.page st) (Some total))
  /\ (forall p,
         p ∈ App.buttonPages
               (App.paginationButtons (App.page st) (Some total))
         -> 1 <= p <= total
            /\ (p <> App.page st -> App.pageGuard st p = false)).
Proof.
  intros Ht Hp. rewrite paginationButtons_pages.
  destruct (page_window_bounds (App.page st) total) as (Hs & He & _).
  assert (Hin : forall p,
             p ∈ 1 :: App.loopRange (App.startPage (App.page st) total)
                        (App.endPage (App.page st) total)
                      ++ (if 1 <? total then [total] else [])
             -> 1 <= p <= total).
  { intros p H. apply elem_of_cons in H as [->|H]; [lia|].
    apply elem_of_app in H as [H|H].
    - apply loopRange_elem in H. lia.
    - destruct (1 <? total); [|apply elem_of_nil in H; contradiction].
      apply list_elem_of_singleton in H. lia. }
  split.
  - destruct (decide (App.page st = 1)) as [->|H1]; [apply list_elem_of_here|].
    apply list_elem_of_further, elem_of_app.
    destruct (decide (App.page st = total)) as [E|H2].
    + right. assert (Hl : (1 <? total) = true) by (apply Z.ltb_lt; lia).
      rewrite Hl, E. apply list_elem_of_here.
    + left. apply loopRange_elem. unfold App.startPage, App.endPage.
      destruct (total - 3 <=? App.page st) eqn:E1;
        destruct (App.page st <=? 4) eqn:E2;
        try apply Z.leb_le in E1; try apply Z.leb_gt in E1;
        try apply Z.leb_le in E2; try apply Z.leb_gt in E2; lia.
  - intros p H. pose proof (Hin p H) as Hr. split; [exact Hr|].
    intros Hne. unfold App.pageGuard, App.gtPages. rewrite Ht.
    rewrite !orb_false_iff, !Z.ltb_ge, Z.eqb_neq. lia.
Qed.

Lemma paginationButtons_targets_witness :
  App.page (App.setTotalPages (Some 20) (App.setPage 9 App.initial))
    ∈ App.buttonPages
        (App.paginationButtons
           (App.page (App.setTotalPages (Some 20) (App.setPage 9 App.initial)))
           (Some 20))
  /\ (forall p,
         p ∈ App.buttonPages
               (App.paginationButtons
                  (App.page
                     (App.setTotalPages (Some 20) (App.setPage 9 App.initial)))
                  (Some 20))
         -> 1 <= p <= 20
            /\ (p <> App.page
                       (App.setTotalPages (Some 20) (App.setPage 9 App.initial))
                -> App.pageGuard
                     (App.setTotalPages (Some 20) (App.setPage 9 App.initial))
                     p
                   = false)).
Proof.
  apply paginationButtons_targets; [reflexivity | simpl; lia].
Defined.

Example paginationButtons_samples :
  App.paginationButtons 9 (Some 20)
  = [App.PageNumber 1; App.Ellipsis; App.PageNumber 7; App.PageNumber 8;
     App.PageNumber 9; App.PageNumber 10; App.PageNumber 11; App.Ellipsis;
     App.PageNumber 20]
  /\ App.paginationButtons 1 (Some 3)
     = [App.PageNumber 1; App.PageNumber 2; App.PageNumber 3]
  /\ App.paginationButtons 1 (Some 1) = [App.PageNumber 1]
  /\ App.paginationButtons 1 None = [App.PageNumber 1].
Proof. repeat split. Qed.

(** ** How create, update and delete compose *)

(** X28: creating a record and then deleting it gives back the list as it
    was, provided no record of the list carries the identifier of the new
    one. *)
Theorem create_then_delete_round_trip
    (st : App.State) (formData res : App.Video) :
  ~ In (App._id res) (List.map App._id (App.videos st)) ->
  fst (App.handleDelete true (Some tt) (App._id res)
         (fst (AddEditModal.submit None formData (Some res) st)))
  = st.
Proof.
  intros Hfresh. simpl.
  rewrite bool_decide_eq_true_2 by reflexivity. simpl.
  rewrite filter_out_absent by exact Hfresh.
  destruct st; reflexivity.
Qed.

Lemma create_then_delete_round_trip_witness :
  fst (App.handleDelete true (Some tt) (App._id Samples.bird)
         (fst (AddEditModal.submit None Samples.bird (Some Samples.bird)
                 Samples.loaded)))
  = Samples.loaded.
Proof.
  apply create_then_delete_round_trip.
  simpl. intros [H|[H|[]]]; vm_compute in H; discriminate.
Defined.

(** X29: saving the same form twice is the same as saving it once: the
    second update finds the same records and writes the same values. *)
Theorem update_idempotent
    (edited formData res res' : App.Video) (prev : list App.Video) :
  AddEditModal.formState (Some edited) formData ->
  fst (AddEditModal.handleSubmit (Some edited) formData (Some res')
         (fst (AddEditModal.handleSubmit (Some edited) formData (Some res)
                 prev)))
  = fst (AddEditModal.handleSubmit (Some edited) formData (Some res) prev).
Proof.
  intros Hform. simpl. rewrite <- list_fmap_compose.
  apply list_fmap_ext. intros i item _. simpl.
  destruct (decide (App._id item = App._id edited)) as [E|N].
  - rewrite (bool_decide_eq_true_2 _ E).
    assert (Hid : App._id (AddEditModal.spread item formData)
                  = App._id edited).
    { unfold App._id at 1.
      rewrite (spread_lookup (Some edited)) by exact Hform.
      rewrite bool_decide_eq_false_2 by exact id_not_a_field. exact E. }
    rewrite (bool_decide_eq_true_2 _ Hid).
    unfold AddEditModal.spread.
    rewrite (assoc_L (∪)), (idemp_L (∪)). reflexivity.
  - rewrite (bool_decide_eq_false_2 _ N), (bool_decide_eq_false_2 _ N).
    reflexivity.
Qed.

Lemma update_idempotent_witness :
  fst (AddEditModal.handleSubmit (Some Samples.dog)
         (AddEditModal.initForm (Some Samples.dog)) (Some Samples.dog)
         (fst (AddEditModal.handleSubmit (Some Samples.dog)
                 (AddEditModal.initForm (Some Samples.dog)) (Some Samples.dog)
                 [Samples.cat; Samples.dog])))
  = fst (AddEditModal.handleSubmit (Some Samples.dog)
           (AddEditModal.initForm (Some Samples.dog)) (Some Samples.dog)
           [Samples.cat; Samples.dog]).
Proof. apply update_idempotent, AddEditModal.form_init. Defined.
